(** * DCFlight debug-log removal script: a shallow embedding

    This development embeds [remove_debug_logs.py] (class [DebugLogCleaner])
    and proves properties of its line filters, its per-file operations and
    its orchestrator.

    - Python [str] values are sequences of Unicode code points ([list N]).
    - The regular expressions of the script only use anchors, literal
      characters, the class [\s], negated one-character classes and the
      postfix operators [*] and [+] on a single character; [Re] embeds that
      fragment together with a backtracking matcher for [re.match].
    - The two [while] loops are recursive functions over the suffix
      [lines[i:]] still to be scanned.
    - File access, console output and the instance counters live in a state
      and exception monad ([Py]).  Opening, reading and writing a file may
      raise, and so may [Path.is_file]; the per-file operations catch the
      former, and nothing catches the latter. *)

From Stdlib Require Import ZArith NArith Ascii String List Bool Lia.
From stdpp Require Import list.
Import ListNotations.

Local Open Scope Z_scope.

(** ** Python strings *)

Module Text.

(** A character is a Unicode code point. *)
Definition char : Type := N.
Definition str : Type := list char.

Definition ord (a : ascii) : char := N_of_ascii a.

(** The [str] denoted by an ASCII literal. *)
Fixpoint py (s : string) : str :=
  match s with
  | EmptyString => []
  | String a s' => ord a :: py s'
  end.

Definition LF : char := 10%N.
Definition DQUOTE : char := 34%N.

(** [py s] followed by a line feed: a line as [readlines] returns it. *)
Definition ln (s : string) : str := py s ++ [LF].

Definition between (lo hi c : char) : bool := (lo <=? c)%N && (c <=? hi)%N.
Arguments between (lo hi c)%_N.

(** [\s] on a [str] pattern is [Py_UNICODE_ISSPACE]. *)
Definition isspace (c : char) : bool :=
  between 9 13 c || between 28 32 c || (c =? 133)%N || (c =? 160)%N
  || (c =? 5760)%N || between 8192 8202 c || (c =? 8232)%N || (c =? 8233)%N
  || (c =? 8239)%N || (c =? 8287)%N || (c =? 12288)%N.

(** [s.count(c)] for a one-character [c]. *)
Fixpoint count (s : str) (c : char) : Z :=
  match s with
  | [] => 0
  | x :: s' => (if (x =? c)%N then 1 else 0) + count s' c
  end.

(** [len] *)
Definition len {A} (l : list A) : Z := Z.of_nat (length l).

End Text.
Import Text.

(** ** The regular-expression fragment used by the script *)

Module Re.

Inductive cclass : Type :=
| Space                (* \s *)
| Lit (c : char)       (* a literal (possibly escaped) character *)
| Not (c : char).      (* [^c] *)

Inductive atom : Type :=
| Bol                  (* ^ *)
| Eol                  (* $ *)
| One (k : cclass)     (* k *)
| Star (k : cclass)    (* k* *)
| Plus (k : cclass).   (* k+ *)

Definition regex : Type := list atom.

Definition in_class (k : cclass) (c : char) : bool :=
  match k with
  | Space => isspace c
  | Lit d => (c =? d)%N
  | Not d => negb (c =? d)%N
  end.

(** [k*] followed by the continuation [cont]: the continuation is tried
    after every number of repetitions.  Whether the engine tries the
    longest repetition first does not change whether a match exists. *)
Fixpoint star (p : char -> bool) (cont : bool -> str -> bool)
         (at_start : bool) (s : str) : bool :=
  cont at_start s
  || match s with
     | [] => false
     | x :: s' => p x && star p cont false s'
     end.

(** [$] without MULTILINE: at the end of the string, or just before a
    line feed that is the last character of the string. *)
Definition at_eol (s : str) : bool :=
  match s with
  | [] => true
  | [c] => (c =? LF)%N
  | _ => false
  end.

(** [matches_here re at_start s]: [re] matches some prefix of [s];
    [at_start] tells whether [s] begins at position 0 of the subject. *)
Fixpoint matches_here (re : regex) (at_start : bool) (s : str) : bool :=
  match re with
  | [] => true
  | Bol :: re' => at_start && matches_here re' at_start s
  | Eol :: re' => at_eol s && matches_here re' at_start s
  | One k :: re' =>
      match s with
      | [] => false
      | x :: s' => in_class k x && matches_here re' false s'
      end
  | Star k :: re' => star (in_class k) (matches_here re') at_start s
  | Plus k :: re' =>
      match s with
      | [] => false
      | x :: s' => in_class k x && star (in_class k) (matches_here re') false s'
      end
  end.

(** [re.match(pattern, s)] is not [None]. *)
Definition re_match (re : regex) (s : str) : bool := matches_here re true s.

(** Building blocks for writing the patterns. *)
Definition chr (a : ascii) : regex := [One (Lit (ord a))].
Definition word (s : string) : regex := map (fun c => One (Lit c)) (py s).
Definition ws : regex := [Star Space].         (* \s* *)
Definition ws1 : regex := [Plus Space].        (* \s+ *)
Definition args : regex := [Star (Not (ord ")"))].  (* [^)]* *)

End Re.
Import Re.

(** ** The patterns of [DebugLogCleaner.__init__] and of the two scans *)

(** [self.dart_patterns] *)
Definition dart_patterns : list regex :=
  [ (* ^\s*print\s*\([^)]*\)\s*;\s*$ *)
    [Bol] ++ ws ++ word "print" ++ ws ++ chr "(" ++ args ++ chr ")" ++ ws
      ++ chr ";" ++ ws ++ [Eol];
    (* ^\s*debugPrint\s*\([^)]*\)\s*;\s*$ *)
    [Bol] ++ ws ++ word "debugPrint" ++ ws ++ chr "(" ++ args ++ chr ")" ++ ws
      ++ chr ";" ++ ws ++ [Eol];
    (* ^\s*developer\.log\s*\([^)]*\)\s*;\s*$ *)
    [Bol] ++ ws ++ word "developer.log" ++ ws ++ chr "(" ++ args ++ chr ")"
      ++ ws ++ chr ";" ++ ws ++ [Eol];
    (* ^\s*if\s*\(\s*kDebugMode\s*\)\s*print\s*\([^)]*\)\s*;\s*$ *)
    [Bol] ++ ws ++ word "if" ++ ws ++ chr "(" ++ ws ++ word "kDebugMode" ++ ws
      ++ chr ")" ++ ws ++ word "print" ++ ws ++ chr "(" ++ args ++ chr ")"
      ++ ws ++ chr ";" ++ ws ++ [Eol] ].

(** [self.swift_patterns] *)
Definition swift_patterns : list regex :=
  [ (* ^\s*print\s*\([^)]*\)\s*$ *)
    [Bol] ++ ws ++ word "print" ++ ws ++ chr "(" ++ args ++ chr ")" ++ ws
      ++ [Eol];
    (* ^\s*NSLog\s*\([^)]*\)\s*$ *)
    [Bol] ++ ws ++ word "NSLog" ++ ws ++ chr "(" ++ args ++ chr ")" ++ ws
      ++ [Eol];
    (* ^\s*os_log\s*\([^)]*\)\s*$ *)
    [Bol] ++ ws ++ word "os_log" ++ ws ++ chr "(" ++ args ++ chr ")" ++ ws
      ++ [Eol] ].

(** ^\s*if\s*\(\s*kDebugMode\s*\)\s*\{\s*$ *)
Definition kdebug_block_re : regex :=
  [Bol] ++ ws ++ word "if" ++ ws ++ chr "(" ++ ws ++ word "kDebugMode" ++ ws
    ++ chr ")" ++ ws ++ chr "{" ++ ws ++ [Eol].

(** ^\s*#if\s+DEBUG\s*$ *)
Definition if_debug_re : regex :=
  [Bol] ++ ws ++ word "#if" ++ ws1 ++ word "DEBUG" ++ ws ++ [Eol].

(** ^\s*#endif\s*$ *)
Definition endif_re : regex :=
  [Bol] ++ ws ++ word "#endif" ++ ws ++ [Eol].

(** ** The line filters (the [while] loops of the two [clean_*_file]) *)

(** A line of a file, as [readlines] returns it. *)
Abbreviation line := str (only parsing).

(** The [for pattern in patterns: if re.match(pattern, line)] loop. *)
Definition should_remove (patterns : list regex) (l : line) : bool :=
  existsb (fun pattern => re_match pattern l) patterns.

Definition LBRACE : char := ord "{".
Definition RBRACE : char := ord "}".

(** Inner loop of [clean_dart_file]:
    [while i < len(lines) and brace_count > 0].  The argument is
    [lines[i:]] and so is the result. *)
Fixpoint skip_brace_block (brace_count : Z) (lines : list line) : list line :=
  match lines with
  | [] => lines
  | next_line :: rest =>
      if 0 <? brace_count
      then skip_brace_block
             (brace_count + (count next_line LBRACE - count next_line RBRACE))
             rest
      else lines
  end.

(** Outer loop of [clean_dart_file]; the result is what the loop appends to
    [cleaned_lines] while scanning [lines[i:]]. *)
Fixpoint clean_dart_lines (lines : list line) : list line :=
  match lines with
  | [] => []
  | l :: rest =>
      if re_match kdebug_block_re l
      then clean_dart_lines (skip_brace_block 1 rest)
      else if should_remove dart_patterns l
           then clean_dart_lines rest
           else l :: clean_dart_lines rest
  end.

(** Inner loop of [clean_swift_file]: [while i < len(lines)] with its
    [break] on the [#endif] line. *)
Fixpoint skip_to_endif (lines : list line) : list line :=
  match lines with
  | [] => lines
  | next_line :: rest =>
      if re_match endif_re next_line then rest else skip_to_endif rest
  end.

(** Outer loop of [clean_swift_file]. *)
Fixpoint clean_swift_lines (lines : list line) : list line :=
  match lines with
  | [] => []
  | l :: rest =>
      if re_match if_debug_re l
      then clean_swift_lines (skip_to_endif rest)
      else if should_remove swift_patterns l
           then clean_swift_lines rest
           else l :: clean_swift_lines rest
  end.

(** ** Paths, the file system and the console *)

(** A [pathlib.Path] is represented by its [parts]. *)
Definition Path : Type := list string.

(** [Path.name]: the final component. *)
Definition name (p : Path) : string := List.last p EmptyString.

(** [part.startswith('.')] *)
Definition startswith_dot (part : string) : bool :=
  match part with
  | String a _ => Ascii.eqb a "."
  | EmptyString => false
  end.

(** What the script needs from the outside world.  [W] is the state of the
    file system and [E] the type of the exceptions (all of them instances of
    [Exception]) that opening, decoding, reading or writing a file, or
    asking for its kind, raises. *)
Class FileSystem (W E : Type) : Type := {
  (** [open(p, 'r', encoding='utf-8')] followed by [f.readlines()] *)
  fs_readlines : W -> Path -> E + list line;
  (** [open(p, 'w', encoding='utf-8')] followed by [f.writelines(lines)];
      the file system may change even when the call raises. *)
  fs_writelines : W -> Path -> list line -> option E * W;
  (** the entries below [root] whose name matches the glob [pattern], each
      given by its path relative to [root], in traversal order *)
  fs_matches : W -> Path -> string -> list Path;
  (** [Path.is_file()]: whether the path is a regular file.  It answers
      [False] for a path that does not exist, and raises what [stat] raises
      otherwise: with the pathlib of Python 3.12 and before, a
      [PermissionError] for an entry of a directory that can be listed but
      not searched. *)
  fs_is_file : W -> Path -> E + bool
}.

(** [root.rglob(pattern)] yields [root] joined with each relative match, so
    the [parts] of every candidate begin with the [parts] of [root]. *)
Definition rglob {W E} `{FileSystem W E} (w : W) (root : Path)
           (pattern : string) : list Path :=
  map (fun rel => root ++ rel) (fs_matches w root pattern).

(** The instance attributes that change during a run. *)
Record DebugLogCleaner : Type := {
  project_root : Path;
  dart_files_processed : Z;
  swift_files_processed : Z;
  total_lines_removed : Z
}.

(** [DebugLogCleaner.__init__] *)
Definition init (root : Path) : DebugLogCleaner :=
  {| project_root := root;
     dart_files_processed := 0;
     swift_files_processed := 0;
     total_lines_removed := 0 |}.

(** The lines the script prints. *)
Inductive message (E : Type) : Type :=
| Removed (lines_removed : Z) (file_name : string)
    (* Removed {lines_removed} debug lines from {file_path.name} *)
| Error (file_name : string) (e : E)
    (* Error processing {file_path.name}: {e} *)
| Banner
| BannerRule
| Scanning (root : Path)
| Blank
| ProcessingDart
| ProcessingSwift
| Summary
| SummaryRule
| DartProcessed (n : Z)
| SwiftProcessed (n : Z)
| TotalRemoved (n : Z)
| Completed
| Tip
| NothingFound.
Arguments Removed {E}.
Arguments Error {E}.
Arguments Banner {E}.
Arguments BannerRule {E}.
Arguments Scanning {E}.
Arguments Blank {E}.
Arguments ProcessingDart {E}.
Arguments ProcessingSwift {E}.
Arguments Summary {E}.
Arguments SummaryRule {E}.
Arguments DartProcessed {E}.
Arguments SwiftProcessed {E}.
Arguments TotalRemoved {E}.
Arguments Completed {E}.
Arguments Tip {E}.
Arguments NothingFound {E}.

(** What an observer of a run sees, in order: each attempt to open a file
    for reading, each attempt to open a file for writing together with the
    lines handed to [writelines], and each printed line. *)
Inductive event (E : Type) : Type :=
| OpenRead (p : Path)
| OpenWrite (p : Path) (lines : list line)
| Print (m : message E).
Arguments OpenRead {E}.
Arguments OpenWrite {E}.
Arguments Print {E}.

(** ** The state and exception monad of the methods *)

Inductive outcome (E A : Type) : Type :=
| Return (a : A)
| Raise (e : E).
Arguments Return {E A}.
Arguments Raise {E A}.

Record state (W E : Type) : Type := {
  self : DebugLogCleaner;
  world : W;
  trace : list (event E)
}.
Arguments self {W E}.
Arguments world {W E}.
Arguments trace {W E}.

Definition Py (W E A : Type) : Type := state W E -> outcome E A * state W E.

Definition ret {W E A} (a : A) : Py W E A := fun s => (Return a, s).

Definition bind {W E A B} (c : Py W E A) (k : A -> Py W E B) : Py W E B :=
  fun s =>
    match c s with
    | (Return a, s') => k a s'
    | (Raise e, s') => (Raise e, s')
    end.

(** [try: body  except Exception as e: handler]; what [body] did to the
    state before raising stays done. *)
Definition try_except {W E A} (body : Py W E A) (handler : E -> Py W E A)
  : Py W E A :=
  fun s =>
    match body s with
    | (Return a, s') => (Return a, s')
    | (Raise e, s') => handler e s'
    end.

Declare Scope py_scope.
Delimit Scope py_scope with py.
Notation "x <- c1 ;; c2" := (bind c1 (fun x => c2))
  (at level 100, c1 at next level, right associativity) : py_scope.
Notation "c1 ;; c2" := (bind c1 (fun _ => c2))
  (at level 100, right associativity) : py_scope.

Definition when {W E} (b : bool) (c : Py W E unit) : Py W E unit :=
  if b then c else ret tt.

(** [for x in l: body(x)] *)
Fixpoint for_each {W E A} (l : list A) (body : A -> Py W E unit)
  : Py W E unit :=
  match l with
  | [] => ret tt
  | x :: l' => bind (body x) (fun _ => for_each l' body)
  end.

Definition record {W E} (ev : event E) (s : state W E) : state W E :=
  {| self := self s; world := world s; trace := trace s ++ [ev] |}.

Definition print {W E} (m : message E) : Py W E unit :=
  fun s => (Return tt, record (Print m) s).

Definition get_self {W E} : Py W E DebugLogCleaner :=
  fun s => (Return (self s), s).

Definition update_self {W E} (f : DebugLogCleaner -> DebugLogCleaner)
  : Py W E unit :=
  fun s => (Return tt,
            {| self := f (self s); world := world s; trace := trace s |}).

(** [self.total_lines_removed += n] *)
Definition add_total_lines_removed (n : Z) (c : DebugLogCleaner)
  : DebugLogCleaner :=
  {| project_root := project_root c;
     dart_files_processed := dart_files_processed c;
     swift_files_processed := swift_files_processed c;
     total_lines_removed := total_lines_removed c + n |}.

(** [self.dart_files_processed += 1] *)
Definition incr_dart_files_processed (c : DebugLogCleaner) : DebugLogCleaner :=
  {| project_root := project_root c;
     dart_files_processed := dart_files_processed c + 1;
     swift_files_processed := swift_files_processed c;
     total_lines_removed := total_lines_removed c |}.

(** [self.swift_files_processed += 1] *)
Definition incr_swift_files_processed (c : DebugLogCleaner) : DebugLogCleaner :=
  {| project_root := project_root c;
     dart_files_processed := dart_files_processed c;
     swift_files_processed := swift_files_processed c + 1;
     total_lines_removed := total_lines_removed c |}.

(** ** The methods of [DebugLogCleaner] *)

Section Methods.
Context {W E : Type} `{FS : FileSystem W E}.

Local Open Scope py_scope.

(** [with open(file_path, 'r', encoding='utf-8') as f: f.readlines()] *)
Definition open_readlines (file_path : Path) : Py W E (list line) :=
  fun s =>
    let s' := record (OpenRead file_path) s in
    match fs_readlines (world s) file_path with
    | inr lines => (Return lines, s')
    | inl e => (Raise e, s')
    end.

(** [with open(file_path, 'w', encoding='utf-8') as f:
     f.writelines(cleaned_lines)] *)
Definition open_writelines (file_path : Path) (cleaned_lines : list line)
  : Py W E unit :=
  fun s =>
    let (r, w') := fs_writelines (world s) file_path cleaned_lines in
    let s' := {| self := self s; world := w';
                 trace := trace s ++ [OpenWrite file_path cleaned_lines] |} in
    match r with
    | None => (Return tt, s')
    | Some e => (Raise e, s')
    end.

Definition clean_dart_file (file_path : Path) : Py W E Z :=
  try_except
    (lines <- open_readlines file_path ;;
     let original_count := len lines in
     let cleaned_lines := clean_dart_lines lines in
     let lines_removed := original_count - len cleaned_lines in
     when (0 <? lines_removed)
       (open_writelines file_path cleaned_lines ;;
        print (Removed lines_removed (name file_path)) ;;
        update_self (add_total_lines_removed lines_removed)) ;;
     update_self incr_dart_files_processed ;;
     ret lines_removed)
    (fun e =>
       print (Error (name file_path) e) ;;
       ret 0).

Definition clean_swift_file (file_path : Path) : Py W E Z :=
  try_except
    (lines <- open_readlines file_path ;;
     let original_count := len lines in
     let cleaned_lines := clean_swift_lines lines in
     let lines_removed := original_count - len cleaned_lines in
     when (0 <? lines_removed)
       (open_writelines file_path cleaned_lines ;;
        print (Removed lines_removed (name file_path)) ;;
        update_self (add_total_lines_removed lines_removed)) ;;
     update_self incr_swift_files_processed ;;
     ret lines_removed)
    (fun e =>
       print (Error (name file_path) e) ;;
       ret 0).

(** The [for file_path in self.project_root.rglob(pattern)] loop of
    [find_files], over the candidates still to come.  Nothing catches what
    [is_file] raises. *)
Fixpoint find_files_loop (w : W) (candidates files : list Path)
  : E + list Path :=
  match candidates with
  | [] => inr files
  | file_path :: rest =>
      if existsb startswith_dot file_path
      then find_files_loop w rest files
      else match fs_is_file w file_path with
           | inl e => inl e
           | inr true => find_files_loop w rest (files ++ [file_path])
           | inr false => find_files_loop w rest files
           end
  end.

Definition find_files (pattern : string) : Py W E (list Path) :=
  fun s =>
    match find_files_loop (world s)
            (rglob (world s) (project_root (self s)) pattern) [] with
    | inr files => (Return files, s)
    | inl e => (Raise e, s)
    end.

(** [for file_path in files: clean(file_path)], the returned count being
    dropped. *)
Definition sweep (clean : Path -> Py W E Z) (files : list Path)
  : Py W E unit :=
  for_each files (fun file_path => clean file_path ;; ret tt).

Definition run : Py W E unit :=
  print Banner ;;
  print BannerRule ;;
  c <- get_self ;;
  print (Scanning (project_root c)) ;;
  print Blank ;;
  print ProcessingDart ;;
  dart_files <- find_files "*.dart" ;;
  sweep clean_dart_file dart_files ;;
  print Blank ;;
  print ProcessingSwift ;;
  swift_files <- find_files "*.swift" ;;
  sweep clean_swift_file swift_files ;;
  print Blank ;;
  print Summary ;;
  print SummaryRule ;;
  c <- get_self ;;
  print (DartProcessed (dart_files_processed c)) ;;
  print (SwiftProcessed (swift_files_processed c)) ;;
  print (TotalRemoved (total_lines_removed c)) ;;
  if 0 <? total_lines_removed c
  then print Blank ;; print Completed ;; print Tip
  else print Blank ;; print NothingFound.

End Methods.

(** ** An in-memory file system

    A small instance of [FileSystem] on which the methods can be run. *)

Module MemFS.

Inductive node : Type :=
| Directory
| RegularFile (content : string + list line) (read_only : bool)
| Denied.

(** Entries in traversal order; a file that cannot be decoded or read
    carries the text of the exception instead of its lines.  [Denied] is an
    entry of a directory that can be listed but not searched: it is found
    by name, and nothing else can be done with it. *)
Definition fs : Type := list (Path * node).

Fixpoint path_eqb (p q : Path) : bool :=
  match p, q with
  | [], [] => true
  | a :: p', b :: q' => String.eqb a b && path_eqb p' q'
  | _, _ => false
  end.

Fixpoint find (w : fs) (p : Path) : option node :=
  match w with
  | [] => None
  | (q, n) :: w' => if path_eqb p q then Some n else find w' p
  end.

Fixpoint store (w : fs) (p : Path) (n : node) : fs :=
  match w with
  | [] => [(p, n)]
  | (q, m) :: w' =>
      if path_eqb p q then (q, n) :: w' else (q, m) :: store w' p n
  end.

(** [strip_prefix root p] is [Some rel] when [p = root ++ rel]. *)
Fixpoint strip_prefix (root p : Path) : option Path :=
  match root, p with
  | [], _ => Some p
  | a :: root', b :: p' =>
      if String.eqb a b then strip_prefix root' p' else None
  | _ :: _, [] => None
  end.

(** Shell-style matching of a name, with [*] for any run of characters. *)
Fixpoint fnmatch (pat : string) : string -> bool :=
  match pat with
  | EmptyString =>
      fun s => match s with EmptyString => true | String _ _ => false end
  | String a pat' =>
      if Ascii.eqb a "*"
      then fix any (s : string) : bool :=
             fnmatch pat' s
             || match s with
                | EmptyString => false
                | String _ s' => any s'
                end
      else fun s =>
             match s with
             | EmptyString => false
             | String b s' => Ascii.eqb a b && fnmatch pat' s'
             end
  end.

Fixpoint matches (w : fs) (root : Path) (pattern : string) : list Path :=
  match w with
  | [] => []
  | (p, _) :: w' =>
      match strip_prefix root p with
      | Some (part :: rel) =>
          if fnmatch pattern (name p)
          then (part :: rel) :: matches w' root pattern
          else matches w' root pattern
      | _ => matches w' root pattern
      end
  end.

Definition readlines (w : fs) (p : Path) : string + list line :=
  match find w p with
  | Some (RegularFile content _) => content
  | Some Directory => inl "IsADirectoryError"%string
  | Some Denied => inl "PermissionError"%string
  | None => inl "FileNotFoundError"%string
  end.

Definition writelines (w : fs) (p : Path) (lines : list line)
  : option string * fs :=
  match find w p with
  | Some (RegularFile _ false) | None =>
      (None, store w p (RegularFile (inr lines) false))
  | Some (RegularFile _ true) | Some Denied =>
      (Some "PermissionError"%string, w)
  | Some Directory => (Some "IsADirectoryError"%string, w)
  end.

Definition is_file (w : fs) (p : Path) : string + bool :=
  match find w p with
  | Some (RegularFile _ _) => inr true
  | Some Denied => inl "PermissionError"%string
  | Some Directory | None => inr false
  end.

#[global] Instance memfs : FileSystem fs string :=
  {| fs_readlines := readlines;
     fs_writelines := writelines;
     fs_matches := matches;
     fs_is_file := is_file |}.

End MemFS.

(** ** Notions used to state the properties *)

(** What one line adds to [brace_count]. *)
Definition brace_delta (l : line) : Z := count l LBRACE - count l RBRACE.

(** The value of [brace_count] after the inner loop has consumed all of
    [lines], starting from [brace_count]. *)
Fixpoint counter_after (brace_count : Z) (lines : list line) : Z :=
  match lines with
  | [] => brace_count
  | l :: rest => counter_after (brace_count + brace_delta l) rest
  end.

(** [brace_count] is positive now and stays positive after each line of
    [lines]: the block is not closed by any of them. *)
Fixpoint unclosed (brace_count : Z) (lines : list line) : bool :=
  (0 <? brace_count)
  && match lines with
     | [] => true
     | l :: rest => unclosed (brace_count + brace_delta l) rest
     end.

(** [brace_count] is not zero now and is not zero after any line of
    [lines]: the counter never returns to zero.  Below zero it is not zero
    either, and there the inner loop has stopped. *)
Fixpoint never_zero (brace_count : Z) (lines : list line) : bool :=
  negb (brace_count =? 0)
  && match lines with
     | [] => true
     | l :: rest => never_zero (brace_count + brace_delta l) rest
     end.

(** A line on which neither the block test nor a per-line pattern fires. *)
Definition dart_plain (l : line) : bool :=
  negb (re_match kdebug_block_re l) && negb (should_remove dart_patterns l).

Definition swift_plain (l : line) : bool :=
  negb (re_match if_debug_re l) && negb (should_remove swift_patterns l).

Definition is_endif (l : line) : bool := re_match endif_re l.

(** The paths opened for writing, and for reading, in a trace. *)
Fixpoint writes {E} (evs : list (event E)) : list Path :=
  match evs with
  | [] => []
  | OpenWrite p _ :: evs' => p :: writes evs'
  | _ :: evs' => writes evs'
  end.

Fixpoint reads {E} (evs : list (event E)) : list Path :=
  match evs with
  | [] => []
  | OpenRead p :: evs' => p :: reads evs'
  | _ :: evs' => reads evs'
  end.

(** The number of times [c] occurs in whatever [re] consumes, when the
    pattern determines it: every class of [re] either is the literal [c]
    or cannot match [c]. *)
Definition class_count (k : cclass) (c : char) : option Z :=
  match k with
  | Space => if isspace c then None else Some 0
  | Lit d => if (d =? c)%N then Some 1 else Some 0
  | Not _ => None
  end.

Fixpoint fixed_count (re : regex) (c : char) : option Z :=
  match re with
  | [] => Some 0
  | Bol :: re' | Eol :: re' => fixed_count re' c
  | One k :: re' =>
      match class_count k c, fixed_count re' c with
      | Some n, Some m => Some (n + m)
      | _, _ => None
      end
  | Star k :: re' | Plus k :: re' =>
      match class_count k c, fixed_count re' c with
      | Some 0, Some m => Some m
      | _, _ => None
      end
  end.

Definition is_eol (a : atom) : bool :=
  match a with Eol => true | _ => false end.

(** The shape shared by [clean_dart_file] and [clean_swift_file], which
    differ in the scan and in the counter they increment. *)
Definition clean_with {W E} `{FileSystem W E}
           (scan : list line -> list line)
           (processed : DebugLogCleaner -> DebugLogCleaner)
           (file_path : Path) : Py W E Z :=
  try_except
    (bind (open_readlines file_path) (fun lines =>
     let original_count := len lines in
     let cleaned_lines := scan lines in
     let lines_removed := original_count - len cleaned_lines in
     bind (when (0 <? lines_removed)
             (bind (open_writelines file_path cleaned_lines) (fun _ =>
              bind (print (Removed lines_removed (name file_path))) (fun _ =>
              update_self (add_total_lines_removed lines_removed))))) (fun _ =>
     bind (update_self processed) (fun _ =>
     ret lines_removed))))
    (fun e => bind (print (Error (name file_path) e)) (fun _ => ret 0)).

(** The state after printing [ms]. *)
Definition emit {W E} (ms : list (message E)) (s : state W E) : state W E :=
  {| self := self s; world := world s; trace := trace s ++ map Print ms |}.

(** What [find_files] returns, or raises, for [root] in the file system
    [w]. *)
Definition found {W E} `{FileSystem W E} (w : W) (root : Path)
           (pattern : string) : E + list Path :=
  find_files_loop w (rglob w root pattern) [].

(** What [run] prints before the first loop, between the loops, and once
    both loops are done. *)
Definition heading {E} (c : DebugLogCleaner) : list (message E) :=
  [Banner; BannerRule; Scanning (project_root c); Blank; ProcessingDart].

Definition interlude {E} : list (message E) := [Blank; ProcessingSwift].

Definition summary {E} (c : DebugLogCleaner) : list (message E) :=
  [Blank; Summary; SummaryRule;
   DartProcessed (dart_files_processed c);
   SwiftProcessed (swift_files_processed c);
   TotalRemoved (total_lines_removed c)]
  ++ (if 0 <? total_lines_removed c
      then [Blank; Completed; Tip]
      else [Blank; NothingFound]).

(** What [run] prints last: the summary when it returns, and nothing when
    a search raised. *)
Definition closing {E} (r : outcome E unit) (c : DebugLogCleaner)
  : list (message E) :=
  match r with
  | Return _ => summary c
  | Raise _ => []
  end.

(** The state in which [main] calls [run]: a fresh cleaner for [root]. *)
Definition start {W E} (root : Path) (w : W) : state W E :=
  {| self := init root; world := w; trace := [] |}.

(** The four ways a per-file operation can go, with the value it returns
    and the state it leaves. *)
Inductive cleaned {W E} `{FileSystem W E} (scan : list line -> list line)
          (processed : DebugLogCleaner -> DebugLogCleaner)
          (p : Path) (s : state W E) : Z -> state W E -> Prop :=
| ReadFailed (e : E) :
    fs_readlines (world s) p = inl e ->
    cleaned scan processed p s 0
      {| self := self s; world := world s;
         trace := trace s ++ [OpenRead p; Print (Error (name p) e)] |}
| NothingRemoved (lines : list line) :
    fs_readlines (world s) p = inr lines ->
    len lines - len (scan lines) <= 0 ->
    cleaned scan processed p s (len lines - len (scan lines))
      {| self := processed (self s); world := world s;
         trace := trace s ++ [OpenRead p] |}
| Rewritten (lines : list line) (w' : W) :
    fs_readlines (world s) p = inr lines ->
    0 < len lines - len (scan lines) ->
    fs_writelines (world s) p (scan lines) = (None, w') ->
    cleaned scan processed p s (len lines - len (scan lines))
      {| self := processed
                   (add_total_lines_removed (len lines - len (scan lines))
                      (self s));
         world := w';
         trace := trace s
                  ++ [OpenRead p; OpenWrite p (scan lines);
                      Print (Removed (len lines - len (scan lines)) (name p))] |}
| WriteFailed (lines : list line) (e : E) (w' : W) :
    fs_readlines (world s) p = inr lines ->
    0 < len lines - len (scan lines) ->
    fs_writelines (world s) p (scan lines) = (Some e, w') ->
    cleaned scan processed p s 0
      {| self := self s; world := w';
         trace := trace s
                  ++ [OpenRead p; OpenWrite p (scan lines);
                      Print (Error (name p) e)] |}.

(** ** Concrete inputs *)

Module Sample.

(** The example of the specification. *)
Definition spec_lines : list line :=
  [ py "print(" ++ [DQUOTE] ++ py "x" ++ [DQUOTE] ++ ln ");";
    ln "if (kDebugMode) {";
    ln "  doSomething();";
    ln "}";
    ln "return;" ].

(** A [kDebugMode] block with a block nested in it. *)
Definition dart_pre : list line := [ln "void f(int x) {"].
Definition dart_opener : line := ln "  if (kDebugMode) {".
Definition dart_body : list line :=
  [ln "    if (x > 0) {"; ln "      trace(x);"; ln "    }"].
Definition dart_closer : line := ln "  }".
Definition dart_post : list line := [ln "  work(x);"; ln "}"].

(** An [#if DEBUG] block. *)
Definition swift_pre : list line := [ln "import Foundation"].
Definition swift_start : line := ln "#if DEBUG".
Definition swift_mid : list line := [ln "let verbose = true"].
Definition swift_term : line := ln "#endif".
Definition swift_post : list line := [ln "let answer = 42"].

(** A project with a Dart file that holds nothing to remove, a Dart file
    holding the example of the specification, a Dart file that cannot be
    decoded, and a Swift file with a debug block. *)
Definition root : Path := ["/"; "work"; "app"]%string.

Definition plain_dart : Path := root ++ ["lib"; "plain.dart"]%string.
Definition debug_dart : Path := root ++ ["lib"; "debug.dart"]%string.
Definition broken_dart : Path := root ++ ["lib"; "broken.dart"]%string.
Definition view_swift : Path := root ++ ["ios"; "View.swift"]%string.

Definition plain_lines : list line := [ln "void main() {"; ln "}"].

Definition project : MemFS.fs :=
  [ (root ++ ["lib"]%string, MemFS.Directory);
    (plain_dart, MemFS.RegularFile (inr plain_lines) false);
    (debug_dart, MemFS.RegularFile (inr spec_lines) false);
    (broken_dart,
      MemFS.RegularFile (inl "UnicodeDecodeError"%string) false);
    (root ++ ["ios"]%string, MemFS.Directory);
    (view_swift,
      MemFS.RegularFile
        (inr (swift_pre ++ swift_start :: swift_mid ++ swift_term :: swift_post))
        false) ].

(** The project as a first run leaves it. *)
Definition cleaned_project : MemFS.fs :=
  Eval vm_compute in world (snd (run (start root project))).

(** A project whose only file has a debug statement and is read-only. *)
Definition locked_dart : Path := root ++ ["lib"; "locked.dart"]%string.

Definition locked_lines : list line := [ln "debugPrint(x);"; ln "f();"].

Definition locked_project : MemFS.fs :=
  [ (locked_dart, MemFS.RegularFile (inr locked_lines) true) ].

(** A project with a Dart file in a directory that can be listed but not
    searched. *)
Definition denied_dart : Path := root ++ ["vault"; "secret.dart"]%string.

Definition denied_project : MemFS.fs :=
  [ (root ++ ["vault"]%string, MemFS.Directory);
    (denied_dart, MemFS.Denied) ].





End Sample.

(** ** The entry point *)


(** ** Further notions used to state properties *)

Definition LPAREN : char := ord "(".
Definition RPAREN : char := ord ")".

(** The lines kept by the per-line test alone. *)
Definition keep_dart (l : line) : bool := negb (should_remove dart_patterns l).
Definition keep_swift (l : line) : bool :=
  negb (should_remove swift_patterns l).

(** The number of times [c] occurs in whatever a class can consume, when
    the class determines it; a negated class [[^c]] never consumes [c]. *)
Definition class_occurs (k : cclass) (c : char) : option Z :=
  match k with
  | Space => if isspace c then None else Some 0
  | Lit d => if (d =? c)%N then Some 1 else Some 0
  | Not d => if (d =? c)%N then Some 0 else None
  end.

Fixpoint occurrences (re : regex) (c : char) : option Z :=
  match re with
  | [] => Some 0
  | Bol :: re' | Eol :: re' => occurrences re' c
  | One k :: re' =>
      match class_occurs k c, occurrences re' c with
      | Some n, Some m => Some (n + m)
      | _, _ => None
      end
  | Star k :: re' | Plus k :: re' =>
      match class_occurs k c, occurrences re' c with
      | Some 0, Some m => Some m
      | _, _ => None
      end
  end.

(** The literal that a pattern of the form [^\s*a...] wants as the first
    character of a line that is not a space. *)
Definition leading_literal (re : regex) : option char :=
  match re with
  | Bol :: Star Space :: One (Lit a) :: _ => Some a
  | _ => None
  end.

(** No pattern of [patterns] can match a line whose first character that is
    not a space is [c]: each wants another literal there, itself not a
    space. *)
Definition excludes (patterns : list regex) (c : char) : bool :=
  forallb (fun re =>
             match leading_literal re with
             | Some a => negb (isspace a) && negb (a =? c)%N
             | None => false
             end) patterns.

(** The number of error lines printed in a trace. *)
Fixpoint errors {E} (evs : list (event E)) : Z :=
  match evs with
  | [] => 0
  | Print (Error _ _) :: evs' => 1 + errors evs'
  | _ :: evs' => errors evs'
  end.

(** The sum of the counts in the [Removed] lines printed in a trace. *)
Fixpoint removed_total {E} (evs : list (event E)) : Z :=
  match evs with
  | [] => 0
  | Print (Removed n _) :: evs' => n + removed_total evs'
  | _ :: evs' => removed_total evs'
  end.

(** Whether a trace has a [Removed] line. *)
Fixpoint has_removed {E} (evs : list (event E)) : bool :=
  match evs with
  | [] => false
  | Print (Removed _ _) :: _ => true
  | _ :: evs' => has_removed evs'
  end.

(** The files opened for writing in a trace, each with the lines handed to
    [writelines]. *)
Fixpoint written {E} (evs : list (event E)) : list (Path * list line) :=
  match evs with
  | [] => []
  | OpenWrite p lines :: evs' => (p, lines) :: written evs'
  | _ :: evs' => written evs'
  end.


(** Whether [is_file] has to be asked about a candidate, and raises. *)
Definition denied {W E} `{FileSystem W E} (w : W) (file_path : Path) : bool :=
  if existsb startswith_dot file_path then false
  else match fs_is_file w file_path with
       | inl _ => true
       | inr _ => false
       end.

(** How the two searches of [run] went: the outcome of [run], the Dart
    files and the Swift files it went through, and the file system in
    which it looked for the Swift files.  A search that raises ends the
    run, and no list comes of it. *)
Inductive searched {W E} `{FileSystem W E} (s : state W E)
  : outcome E unit -> list Path -> list Path -> W -> Prop :=
| DartSearchRaised (e : E) :
    found (world s) (project_root (self s)) "*.dart" = inl e ->
    searched s (Raise e) [] [] (world s)
| SwiftSearchRaised (e : E) (dart_files : list Path) (w1 : W) :
    found (world s) (project_root (self s)) "*.dart" = inr dart_files ->
    found w1 (project_root (self s)) "*.swift" = inl e ->
    searched s (Raise e) dart_files [] w1
| BothSearched (dart_files swift_files : list Path) (w1 : W) :
    found (world s) (project_root (self s)) "*.dart" = inr dart_files ->
    found w1 (project_root (self s)) "*.swift" = inr swift_files ->
    searched s (Return tt) dart_files swift_files w1.


(** ** Facts about the matcher *)

Lemma count_app (a b : str) (c : char) :
  count (a ++ b) c = count a c + count b c.
Proof. induction a as [|x a IH]; simpl; [reflexivity | rewrite IH; lia]. Qed.

Lemma star_inv (p : char -> bool) (cont : bool -> str -> bool) :
  forall s b, star p cont b s = true ->
    exists pre rest b',
      s = pre ++ rest /\ forallb p pre = true /\ cont b' rest = true.
Proof.
  induction s as [|x s IH]; intros b Hs; simpl in Hs.
  - rewrite orb_false_r in Hs. exists [], [], b. auto.
  - apply orb_true_iff in Hs as [Hk | Hs].
    + exists [], (x :: s), b. auto.
    + apply andb_true_iff in Hs as [Hx Hs].
      destruct (IH _ Hs) as (pre & rest & b' & -> & Hpre & Hk).
      exists (x :: pre), rest, b'. simpl. rewrite Hx, Hpre. auto.
Qed.

Lemma class_count_one (k : cclass) (c x : char) (n : Z) :
  class_count k c = Some n -> in_class k x = true ->
  (if (x =? c)%N then 1 else 0) = n.
Proof.
  destruct k as [|d|d]; simpl; intros Hn Hx.
  - destruct (isspace c) eqn:Hc; [discriminate|]. injection Hn as <-.
    destruct (N.eqb_spec x c); [congruence | reflexivity].
  - apply N.eqb_eq in Hx as ->. destruct (d =? c)%N; congruence.
  - discriminate.
Qed.

Lemma class_count_run (k : cclass) (c : char) (pre : str) :
  class_count k c = Some 0 -> forallb (in_class k) pre = true ->
  count pre c = 0.
Proof.
  intros Hk. induction pre as [|x pre IH]; simpl; [reflexivity|].
  intros [Hx Hpre]%andb_true_iff.
  rewrite (class_count_one _ _ _ _ Hk Hx), IH by assumption. reflexivity.
Qed.

Lemma at_eol_suffix (s1 s2 : str) : at_eol (s1 ++ s2) = true -> at_eol s2 = true.
Proof.
  destruct s1 as [|x [|y s1]]; simpl; [tauto | | discriminate].
  destruct s2; simpl; [reflexivity | discriminate].
Qed.

Lemma at_eol_count (s : str) (c : char) :
  c <> LF -> at_eol s = true -> count s c = 0.
Proof.
  intros Hc. destruct s as [|x [|y s]]; simpl; [reflexivity | | discriminate].
  intros ->%N.eqb_eq. destruct (N.eqb_spec LF c); [congruence | reflexivity].
Qed.

(** A match of [re] consumes a prefix holding exactly [fixed_count re c]
    occurrences of [c]; when [re] has a [$], what follows the prefix is at
    the end of the line. *)
Lemma matches_here_count (c : char) :
  forall re b s n,
    matches_here re b s = true -> fixed_count re c = Some n ->
    exists s1 s2, s = s1 ++ s2 /\ count s1 c = n
                  /\ (existsb is_eol re = true -> at_eol s2 = true).
Proof.
  induction re as [|a re IH]; intros b s n Hm Hn.
  - injection Hn as <-. exists [], s. simpl. repeat split; discriminate.
  - destruct a as [| |k|k|k]; simpl in Hm, Hn.
    + apply andb_true_iff in Hm as [_ Hm].
      destruct (IH _ _ _ Hm Hn) as (s1 & s2 & -> & Hc & He).
      exists s1, s2. auto.
    + apply andb_true_iff in Hm as [Hs Hm].
      destruct (IH _ _ _ Hm Hn) as (s1 & s2 & -> & Hc & He).
      exists s1, s2. repeat split; [assumption|].
      intros _. exact (at_eol_suffix _ _ Hs).
    + destruct s as [|x s]; [discriminate|].
      apply andb_true_iff in Hm as [Hx Hm].
      destruct (class_count k c) as [n1|] eqn:Hk; [|discriminate].
      destruct (fixed_count re c) as [m|] eqn:Hre; [|discriminate].
      injection Hn as <-.
      destruct (IH _ _ _ Hm eq_refl) as (s1 & s2 & -> & Hc & He).
      exists (x :: s1), s2. simpl.
      rewrite (class_count_one _ _ _ _ Hk Hx), Hc. auto.
    + destruct (class_count k c) as [[| |]|] eqn:Hk; try discriminate.
      destruct (fixed_count re c) as [m|] eqn:Hre; [|discriminate].
      injection Hn as <-.
      destruct (star_inv _ _ _ _ Hm) as (pre & rest & b' & -> & Hpre & Hr).
      destruct (IH _ _ _ Hr eq_refl) as (s1 & s2 & -> & Hc & He).
      exists (pre ++ s1), s2. rewrite count_app, Hc, <- app_assoc.
      rewrite (class_count_run _ _ _ Hk Hpre). auto.
    + destruct s as [|x s]; [discriminate|].
      apply andb_true_iff in Hm as [Hx Hm].
      destruct (class_count k c) as [[| |]|] eqn:Hk; try discriminate.
      destruct (fixed_count re c) as [m|] eqn:Hre; [|discriminate].
      injection Hn as <-.
      destruct (star_inv _ _ _ _ Hm) as (pre & rest & b' & -> & Hpre & Hr).
      destruct (IH _ _ _ Hr eq_refl) as (s1 & s2 & -> & Hc & He).
      exists (x :: pre ++ s1), s2. simpl.
      rewrite count_app, Hc, <- app_assoc.
      rewrite (class_count_one _ _ _ _ Hk Hx).
      rewrite (class_count_run _ _ _ Hk Hpre). auto.
Qed.

(** On a line matched by a pattern that ends in [$], the number of
    occurrences of a character other than the line feed is the one the
    pattern fixes. *)
Lemma re_match_count (re : regex) (l : line) (c : char) (n : Z) :
  c <> LF -> existsb is_eol re = true -> fixed_count re c = Some n ->
  re_match re l = true -> count l c = n.
Proof.
  intros Hc He Hn Hm.
  destruct (matches_here_count c _ _ _ _ Hm Hn) as (s1 & s2 & -> & H1 & H2).
  rewrite count_app, H1, (at_eol_count _ _ Hc (H2 He)). lia.
Qed.

(** The opener of a [kDebugMode] block has one [{] and no [}]. *)
Lemma kdebug_block_delta (l : line) :
  re_match kdebug_block_re l = true -> brace_delta l = 1.
Proof.
  intros Hm. unfold brace_delta.
  rewrite (re_match_count kdebug_block_re l LBRACE 1),
          (re_match_count kdebug_block_re l RBRACE 0);
    try assumption; try reflexivity; discriminate.
Qed.

Lemma star_disjoint (p : char -> bool) (k1 k2 : bool -> str -> bool) :
  (forall b b' s, k1 b s = true -> k2 b' s = true -> False) ->
  (forall b x s, k1 b (x :: s) = true -> p x = false) ->
  (forall b x s, k2 b (x :: s) = true -> p x = false) ->
  forall s b b', star p k1 b s = true -> star p k2 b' s = true -> False.
Proof.
  intros Hd H1 H2. induction s as [|x s IH]; intros b b'; simpl.
  - rewrite !orb_false_r. apply Hd.
  - intros [Ha | [Hx Ha]%andb_true_iff]%orb_true_iff
           [Hb | [Hy Hb]%andb_true_iff]%orb_true_iff.
    + exact (Hd _ _ _ Ha Hb).
    + rewrite (H1 _ _ _ Ha) in Hy. discriminate.
    + rewrite (H2 _ _ _ Hb) in Hx. discriminate.
    + exact (IH _ _ Ha Hb).
Qed.

(** Two patterns [^\s*ab...] and [^\s*ab'...] with [b <> b'] and [a] not a
    space never match the same line. *)
Lemma second_letter_disjoint (a b1 b2 : char) (r1 r2 : regex) (l : line) :
  isspace a = false -> b1 <> b2 ->
  re_match (Bol :: Star Space :: One (Lit a) :: One (Lit b1) :: r1) l = true ->
  re_match (Bol :: Star Space :: One (Lit a) :: One (Lit b2) :: r2) l = false.
Proof.
  intros Ha Hb H1.
  destruct (re_match (Bol :: Star Space :: One (Lit a) :: One (Lit b2) :: r2) l)
    eqn:H2; [exfalso | reflexivity].
  unfold re_match in H1, H2. simpl in H1, H2.
  revert H1 H2. apply star_disjoint.
  - intros _ _ [|x [|y s]]; simpl; rewrite ?andb_false_r; try discriminate.
    intros [_ [Hy _]%andb_true_iff]%andb_true_iff
           [_ [Hy' _]%andb_true_iff]%andb_true_iff.
    apply N.eqb_eq in Hy, Hy'. congruence.
  - simpl. intros _ x s [Hx _]%andb_true_iff. apply N.eqb_eq in Hx. congruence.
  - simpl. intros _ x s [Hx _]%andb_true_iff. apply N.eqb_eq in Hx. congruence.
Qed.

(** A [#if DEBUG] line is not an [#endif] line. *)
Lemma if_debug_not_endif (l : line) :
  re_match if_debug_re l = true -> is_endif l = false.
Proof.
  apply (second_letter_disjoint 35%N 105%N 101%N); [reflexivity | discriminate].
Qed.

(** ** Properties shared by the two scans

    Both outer loops have the same shape: a block test that hands the rest
    of the file to an inner loop, then the per-line test. *)

Section Scan.
Variables (opens removes : line -> bool).
Variables (skip scan : list line -> list line).

Hypothesis skip_suffix : forall ls, exists pre, ls = pre ++ skip ls.
Hypothesis scan_nil : scan [] = [].
Hypothesis scan_cons : forall l rest,
    scan (l :: rest) =
      if opens l then scan (skip rest)
      else if removes l then scan rest else l :: scan rest.

Lemma skip_length (ls : list line) : (length (skip ls) <= length ls)%nat.
Proof.
  destruct (skip_suffix ls) as [pre Hpre].
  rewrite Hpre at 2. rewrite length_app. lia.
Qed.

(** Induction along the cursor of the outer loop. *)
Lemma scan_ind (P : list line -> Prop) :
  P [] ->
  (forall l rest, opens l = true -> P (skip rest) -> P (l :: rest)) ->
  (forall l rest, opens l = false -> P rest -> P (l :: rest)) ->
  forall ls, P ls.
Proof.
  intros Hnil Hopen Hline ls.
  remember (length ls) as n eqn:Hn.
  assert (Hle : (length ls <= n)%nat) by lia. clear Hn.
  revert ls Hle. induction n as [|n IH]; intros [|l rest] Hle; simpl in Hle;
    try assumption; try lia.
  destruct (opens l) eqn:Ho.
  - apply Hopen; [assumption|]. apply IH.
    pose proof (skip_length rest). lia.
  - apply Hline; [assumption|]. apply IH. lia.
Qed.

Lemma scan_sublist (ls : list line) : sublist (scan ls) ls.
Proof.
  induction ls as [| l rest Ho IH | l rest Ho IH] using scan_ind.
  - rewrite scan_nil. constructor.
  - rewrite scan_cons, Ho. apply sublist_cons.
    destruct (skip_suffix rest) as [pre Hpre]. rewrite Hpre at 2.
    apply sublist_inserts_l, IH.
  - rewrite scan_cons, Ho. destruct (removes l).
    + apply sublist_cons, IH.
    + apply sublist_skip, IH.
Qed.

(** Every line that survives passed both tests. *)
Lemma scan_survivors (ls : list line) :
  forallb (fun l => negb (opens l) && negb (removes l)) (scan ls) = true.
Proof.
  induction ls as [| l rest Ho IH | l rest Ho IH] using scan_ind.
  - rewrite scan_nil. reflexivity.
  - rewrite scan_cons, Ho. exact IH.
  - rewrite scan_cons, Ho. destruct (removes l) eqn:Hr; [exact IH|].
    simpl. rewrite Ho, Hr, IH. reflexivity.
Qed.

(** Lines on which no test fires are all kept. *)
Lemma scan_fixed (ls : list line) :
  forallb (fun l => negb (opens l) && negb (removes l)) ls = true ->
  scan ls = ls.
Proof.
  induction ls as [|l rest IH]; simpl; [intros _; apply scan_nil|].
  intros [[Ho Hr]%andb_true_iff Hrest]%andb_true_iff.
  apply negb_true_iff in Ho, Hr.
  rewrite scan_cons, Ho, Hr, IH by assumption. reflexivity.
Qed.

Lemma scan_idempotent (ls : list line) : scan (scan ls) = scan ls.
Proof. apply scan_fixed, scan_survivors. Qed.

End Scan.

(** *** The Dart scan *)

Lemma skip_brace_block_suffix (c : Z) (ls : list line) :
  exists pre, ls = pre ++ skip_brace_block c ls.
Proof.
  revert c. induction ls as [|l rest IH]; intros c; simpl.
  - exists []. reflexivity.
  - destruct (0 <? c).
    + destruct (IH (c + (count l LBRACE - count l RBRACE))) as [pre Hpre].
      exists (l :: pre). simpl. congruence.
    + exists []. reflexivity.
Qed.

Lemma clean_dart_lines_cons (l : line) (rest : list line) :
  clean_dart_lines (l :: rest) =
    if re_match kdebug_block_re l then clean_dart_lines (skip_brace_block 1 rest)
    else if should_remove dart_patterns l then clean_dart_lines rest
         else l :: clean_dart_lines rest.
Proof. reflexivity. Qed.

Lemma skip_brace_block_cons (c : Z) (l : line) (rest : list line) :
  skip_brace_block c (l :: rest) =
    if 0 <? c then skip_brace_block (c + brace_delta l) rest else l :: rest.
Proof. reflexivity. Qed.

Lemma skip_brace_block_closed (c : Z) (ls : list line) :
  c <= 0 -> skip_brace_block c ls = ls.
Proof.
  intros Hc. destruct ls as [|l rest]; [reflexivity|].
  rewrite skip_brace_block_cons.
  destruct (Z.ltb_spec 0 c); [lia | reflexivity].
Qed.

(** While the block stays open the inner loop runs through [a]. *)
Lemma skip_brace_block_unclosed (a b : list line) :
  forall c, unclosed c a = true ->
    skip_brace_block c (a ++ b) = skip_brace_block (counter_after c a) b
    /\ 0 < counter_after c a.
Proof.
  induction a as [|l a IH]; intros c; simpl.
  - rewrite andb_true_r. intros Hc%Z.ltb_lt. auto.
  - intros [Hc Ha]%andb_true_iff. fold (brace_delta l). rewrite Hc.
    apply IH, Ha.
Qed.

(** Once the block is closed inside [a], what follows [a] is not touched. *)
Lemma skip_brace_block_closes (a b : list line) :
  forall c, unclosed c a = false ->
    skip_brace_block c (a ++ b) = skip_brace_block c a ++ b.
Proof.
  induction a as [|l a IH]; intros c; simpl.
  - rewrite andb_true_r. intros Hc%Z.ltb_ge.
    apply skip_brace_block_closed, Hc.
  - fold (brace_delta l). destruct (0 <? c); simpl; [|reflexivity].
    apply IH.
Qed.

Lemma skip_brace_block_unclosed_nil (a : list line) (c : Z) :
  unclosed c a = true -> skip_brace_block c a = [].
Proof.
  intros Ha.
  destruct (skip_brace_block_unclosed a [] c Ha) as [H _].
  rewrite app_nil_r in H. rewrite H. reflexivity.
Qed.

(** A higher starting counter keeps an open block open. *)
Lemma unclosed_mono (a : list line) :
  forall c d, 0 <= d -> unclosed c a = true ->
    unclosed (c + d) a = true /\ counter_after (c + d) a = counter_after c a + d.
Proof.
  induction a as [|l a IH]; intros c d Hd; simpl.
  - rewrite !andb_true_r. intros Hc%Z.ltb_lt. split; [apply Z.ltb_lt|]; lia.
  - intros [Hc%Z.ltb_lt Ha]%andb_true_iff.
    destruct (IH _ _ Hd Ha) as [H1 H2].
    replace (c + d + brace_delta l) with (c + brace_delta l + d) by lia.
    rewrite H1, H2. split; [|reflexivity].
    apply andb_true_iff. split; [apply Z.ltb_lt; lia | reflexivity].
Qed.

Lemma counter_after_app (a b : list line) (c : Z) :
  counter_after c (a ++ b) = counter_after (counter_after c a) b.
Proof. revert c. induction a as [|l a IH]; intros c; simpl; auto. Qed.

Lemma dart_ind (P : list line -> Prop) :
  P [] ->
  (forall l rest, re_match kdebug_block_re l = true ->
                  P (skip_brace_block 1 rest) -> P (l :: rest)) ->
  (forall l rest, re_match kdebug_block_re l = false -> P rest ->
                  P (l :: rest)) ->
  forall ls, P ls.
Proof. apply scan_ind, skip_brace_block_suffix. Qed.

(** With the counter at [c + 1], a body that keeps a counter started at 1
    positive, followed by a line that brings that counter to 0, leaves the
    inner loop with the counter at [c] in front of what follows. *)
Lemma skip_brace_block_balanced (body : list line) (closer : line)
      (post : list line) (c : Z) :
  0 <= c -> unclosed 1 body = true ->
  counter_after 1 (body ++ [closer]) = 0 ->
  skip_brace_block (c + 1) (body ++ closer :: post) = skip_brace_block c post.
Proof.
  intros Hc Hbody Hzero.
  destruct (unclosed_mono body 1 c Hc Hbody) as [Hopen Hafter].
  rewrite (Z.add_comm c 1).
  destruct (skip_brace_block_unclosed body (closer :: post) _ Hopen)
    as [-> Hpos].
  rewrite counter_after_app in Hzero. simpl in Hzero.
  rewrite skip_brace_block_cons.
  destruct (Z.ltb_spec 0 (counter_after (1 + c) body)); [|lia].
  f_equal. lia.
Qed.

Lemma dart_block_transparent (opener : line) (body : list line)
      (closer : line) (post : list line) :
  re_match kdebug_block_re opener = true ->
  unclosed 1 body = true ->
  counter_after 1 (body ++ [closer]) = 0 ->
  forall pre,
    clean_dart_lines (pre ++ opener :: body ++ closer :: post)
    = clean_dart_lines (pre ++ post).
Proof.
  intros Hopener Hbody Hzero pre.
  induction pre as [| l rest Ho IH | l rest Ho IH] using dart_ind.
  - simpl app. rewrite clean_dart_lines_cons, Hopener.
    change 1 with (0 + 1) at 1.
    rewrite (skip_brace_block_balanced body closer post 0) by (assumption || lia).
    rewrite skip_brace_block_closed by lia. reflexivity.
  - rewrite <- !app_comm_cons, !clean_dart_lines_cons, Ho.
    destruct (unclosed 1 rest) eqn:Hrest.
    + destruct (skip_brace_block_unclosed rest
                  (opener :: body ++ closer :: post) 1 Hrest) as [-> Hpos].
      destruct (skip_brace_block_unclosed rest post 1 Hrest) as [-> _].
      rewrite skip_brace_block_cons, (kdebug_block_delta _ Hopener).
      destruct (Z.ltb_spec 0 (counter_after 1 rest)); [|lia].
      rewrite skip_brace_block_balanced by (assumption || lia). reflexivity.
    + rewrite !skip_brace_block_closes by assumption. exact IH.
  - rewrite <- !app_comm_cons, !clean_dart_lines_cons, Ho, IH. reflexivity.
Qed.

Lemma dart_block_unterminated (opener : line) (rest : list line) :
  re_match kdebug_block_re opener = true ->
  unclosed 1 rest = true ->
  forall pre,
    clean_dart_lines (pre ++ opener :: rest) = clean_dart_lines pre.
Proof.
  intros Hopener Hrest pre.
  induction pre as [| l pre' Ho IH | l pre' Ho IH] using dart_ind.
  - simpl app. rewrite clean_dart_lines_cons, Hopener.
    rewrite skip_brace_block_unclosed_nil by assumption. reflexivity.
  - rewrite <- !app_comm_cons, !clean_dart_lines_cons, Ho.
    destruct (unclosed 1 pre') eqn:Hpre.
    + destruct (skip_brace_block_unclosed pre' (opener :: rest) 1 Hpre)
        as [-> Hpos].
      rewrite (skip_brace_block_unclosed_nil pre') by assumption.
      rewrite skip_brace_block_cons, (kdebug_block_delta _ Hopener).
      destruct (Z.ltb_spec 0 (counter_after 1 pre')); [|lia].
      destruct (unclosed_mono rest 1 (counter_after 1 pre')) as [Hopen _];
        [lia | assumption |].
      rewrite Z.add_comm, skip_brace_block_unclosed_nil by assumption.
      reflexivity.
    + rewrite skip_brace_block_closes by assumption. exact IH.
  - rewrite <- !app_comm_cons, !clean_dart_lines_cons, Ho, IH. reflexivity.
Qed.

(** *** The Swift scan *)

Lemma skip_to_endif_suffix (ls : list line) :
  exists pre, ls = pre ++ skip_to_endif ls.
Proof.
  induction ls as [|l rest IH]; simpl.
  - exists []. reflexivity.
  - destruct (re_match endif_re l).
    + exists [l]. reflexivity.
    + destruct IH as [pre Hpre]. exists (l :: pre). simpl. congruence.
Qed.

Lemma clean_swift_lines_cons (l : line) (rest : list line) :
  clean_swift_lines (l :: rest) =
    if re_match if_debug_re l then clean_swift_lines (skip_to_endif rest)
    else if should_remove swift_patterns l then clean_swift_lines rest
         else l :: clean_swift_lines rest.
Proof. reflexivity. Qed.

Lemma skip_to_endif_cons (l : line) (rest : list line) :
  skip_to_endif (l :: rest) = if is_endif l then rest else skip_to_endif rest.
Proof. reflexivity. Qed.

Lemma swift_ind (P : list line -> Prop) :
  P [] ->
  (forall l rest, re_match if_debug_re l = true ->
                  P (skip_to_endif rest) -> P (l :: rest)) ->
  (forall l rest, re_match if_debug_re l = false -> P rest -> P (l :: rest)) ->
  forall ls, P ls.
Proof. apply scan_ind, skip_to_endif_suffix. Qed.

(** Without an [#endif] in [a] the inner loop runs through [a]. *)
Lemma skip_to_endif_none (a b : list line) :
  existsb is_endif a = false ->
  skip_to_endif (a ++ b) = skip_to_endif b /\ skip_to_endif a = [].
Proof.
  induction a as [|l a IH]; simpl; [auto|].
  intros [Hl Ha]%orb_false_iff. unfold is_endif in Hl. rewrite Hl. auto.
Qed.

(** With an [#endif] in [a], what follows [a] is not touched. *)
Lemma skip_to_endif_some (a b : list line) :
  existsb is_endif a = true ->
  skip_to_endif (a ++ b) = skip_to_endif a ++ b.
Proof.
  induction a as [|l a IH]; simpl; [discriminate|].
  unfold is_endif at 1. destruct (re_match endif_re l); simpl; auto.
Qed.

Lemma Forall_not_endif (ls : list line) :
  Forall (fun l => is_endif l = false) ls -> existsb is_endif ls = false.
Proof.
  induction 1 as [|l ls Hl _ IH]; simpl; [reflexivity|].
  rewrite Hl, IH. reflexivity.
Qed.

Lemma swift_block_split (start : line) (mid : list line) (term : line)
      (post : list line) :
  re_match if_debug_re start = true ->
  existsb is_endif mid = false ->
  is_endif term = true ->
  forall pre,
    clean_swift_lines (pre ++ start :: mid ++ term :: post)
    = clean_swift_lines pre ++ clean_swift_lines post.
Proof.
  intros Hstart Hmid Hterm pre.
  assert (Hblock : skip_to_endif (mid ++ term :: post) = post).
  { destruct (skip_to_endif_none mid (term :: post) Hmid) as [-> _].
    rewrite skip_to_endif_cons, Hterm. reflexivity. }
  induction pre as [| l rest Ho IH | l rest Ho IH] using swift_ind.
  - simpl app. rewrite clean_swift_lines_cons, Hstart, Hblock. reflexivity.
  - rewrite <- !app_comm_cons, !clean_swift_lines_cons, Ho.
    destruct (existsb is_endif rest) eqn:Hrest.
    + rewrite skip_to_endif_some by assumption. exact IH.
    + destruct (skip_to_endif_none rest (start :: mid ++ term :: post) Hrest)
        as [-> ->].
      rewrite skip_to_endif_cons, (if_debug_not_endif _ Hstart), Hblock.
      reflexivity.
  - rewrite <- !app_comm_cons, !clean_swift_lines_cons, Ho.
    destruct (should_remove swift_patterns l); rewrite IH; reflexivity.
Qed.

Lemma swift_block_unterminated (start : line) (rest : list line) :
  re_match if_debug_re start = true ->
  existsb is_endif rest = false ->
  forall pre,
    clean_swift_lines (pre ++ start :: rest) = clean_swift_lines pre.
Proof.
  intros Hstart Hrest pre.
  destruct (skip_to_endif_none rest [] Hrest) as [_ Hnil].
  induction pre as [| l pre' Ho IH | l pre' Ho IH] using swift_ind.
  - simpl app. rewrite clean_swift_lines_cons, Hstart, Hnil. reflexivity.
  - rewrite <- !app_comm_cons, !clean_swift_lines_cons, Ho.
    destruct (existsb is_endif pre') eqn:Hpre.
    + rewrite skip_to_endif_some by assumption. exact IH.
    + destruct (skip_to_endif_none pre' (start :: rest) Hpre) as [-> ->].
      rewrite skip_to_endif_cons, (if_debug_not_endif _ Hstart), Hnil.
      reflexivity.
  - rewrite <- !app_comm_cons, !clean_swift_lines_cons, Ho, IH. reflexivity.
Qed.

(** ** The per-file operations *)

Section PerFile.
Context {W E : Type} `{FS : FileSystem W E}.

Lemma clean_dart_file_shape :
  clean_dart_file = clean_with clean_dart_lines incr_dart_files_processed.
Proof. reflexivity. Qed.

Lemma clean_swift_file_shape :
  clean_swift_file = clean_with clean_swift_lines incr_swift_files_processed.
Proof. reflexivity. Qed.

(** A per-file operation always returns, in one of the four ways. *)
Lemma clean_with_cleaned (scan : list line -> list line)
      (processed : DebugLogCleaner -> DebugLogCleaner)
      (p : Path) (s : state W E) :
  exists n s', clean_with scan processed p s = (Return n, s')
               /\ cleaned scan processed p s n s'.
Proof.
  unfold clean_with, try_except, bind, open_readlines, open_writelines, when,
    print, update_self, ret, record.
  destruct (fs_readlines (world s) p) as [e | lines] eqn:Hread; simpl.
  - eexists _, _. split; [reflexivity|].
    rewrite <- app_assoc. apply ReadFailed, Hread.
  - destruct (Z.ltb_spec 0 (len lines - len (scan lines))) as [Hpos | Hle];
      simpl.
    + destruct (fs_writelines (world s) p (scan lines)) as [[e|] w'] eqn:Hw;
        simpl.
      * eexists _, _. split; [reflexivity|].
        rewrite <- !app_assoc. eapply WriteFailed; eassumption.
      * eexists _, _. split; [reflexivity|].
        rewrite <- !app_assoc. eapply Rewritten; eassumption.
    + eexists _, _. split; [reflexivity|].
      apply NothingRemoved; assumption.
Qed.

(** The result of a per-file operation is determined. *)
Lemma clean_with_inv (scan : list line -> list line)
      (processed : DebugLogCleaner -> DebugLogCleaner)
      (p : Path) (s : state W E) (r : outcome E Z) (s' : state W E) :
  clean_with scan processed p s = (r, s') ->
  exists n, r = Return n /\ cleaned scan processed p s n s'.
Proof.
  intros Hrun.
  destruct (clean_with_cleaned scan processed p s) as (n & s1 & Heq & Hc).
  rewrite Heq in Hrun. injection Hrun as <- <-. eauto.
Qed.

(** The four cases, each as an equation. *)
Lemma clean_with_read_error (scan : list line -> list line)
      (processed : DebugLogCleaner -> DebugLogCleaner)
      (p : Path) (s : state W E) (e : E) :
  fs_readlines (world s) p = inl e ->
  clean_with scan processed p s =
    (Return 0,
     {| self := self s; world := world s;
        trace := trace s ++ [OpenRead p; Print (Error (name p) e)] |}).
Proof.
  intros Hread.
  destruct (clean_with_cleaned scan processed p s) as (n & s' & -> & Hc).
  destruct Hc as [e0 Hr | lines Hr Hn | lines w' Hr Hn Hw | lines e0 w' Hr Hn Hw];
    rewrite Hread in Hr; try discriminate.
  injection Hr as <-. reflexivity.
Qed.

Lemma clean_with_nothing_removed (scan : list line -> list line)
      (processed : DebugLogCleaner -> DebugLogCleaner)
      (p : Path) (s : state W E) (lines : list line) :
  fs_readlines (world s) p = inr lines ->
  len lines - len (scan lines) <= 0 ->
  clean_with scan processed p s =
    (Return (len lines - len (scan lines)),
     {| self := processed (self s); world := world s;
        trace := trace s ++ [OpenRead p] |}).
Proof.
  intros Hread Hle.
  destruct (clean_with_cleaned scan processed p s) as (n & s' & -> & Hc).
  destruct Hc as [e0 Hr | ls Hr Hn | ls w' Hr Hn Hw | ls e0 w' Hr Hn Hw];
    rewrite Hread in Hr; try discriminate; injection Hr as <-;
    (reflexivity || lia).
Qed.

Lemma clean_with_rewritten (scan : list line -> list line)
      (processed : DebugLogCleaner -> DebugLogCleaner)
      (p : Path) (s : state W E) (lines : list line) (w' : W) :
  fs_readlines (world s) p = inr lines ->
  0 < len lines - len (scan lines) ->
  fs_writelines (world s) p (scan lines) = (None, w') ->
  clean_with scan processed p s =
    (Return (len lines - len (scan lines)),
     {| self := processed
                  (add_total_lines_removed (len lines - len (scan lines))
                     (self s));
        world := w';
        trace := trace s
                 ++ [OpenRead p; OpenWrite p (scan lines);
                     Print (Removed (len lines - len (scan lines)) (name p))] |}).
Proof.
  intros Hread Hpos Hwrite.
  destruct (clean_with_cleaned scan processed p s) as (n & s' & -> & Hc).
  destruct Hc as [e0 Hr | ls Hr Hn | ls w0 Hr Hn Hw | ls e0 w0 Hr Hn Hw];
    rewrite Hread in Hr; try discriminate; injection Hr as <-;
    try lia; rewrite Hwrite in Hw; try discriminate.
  injection Hw as <-. reflexivity.
Qed.

Lemma clean_with_write_error (scan : list line -> list line)
      (processed : DebugLogCleaner -> DebugLogCleaner)
      (p : Path) (s : state W E) (lines : list line) (e : E) (w' : W) :
  fs_readlines (world s) p = inr lines ->
  0 < len lines - len (scan lines) ->
  fs_writelines (world s) p (scan lines) = (Some e, w') ->
  clean_with scan processed p s =
    (Return 0,
     {| self := self s; world := w';
        trace := trace s
                 ++ [OpenRead p; OpenWrite p (scan lines);
                     Print (Error (name p) e)] |}).
Proof.
  intros Hread Hpos Hwrite.
  destruct (clean_with_cleaned scan processed p s) as (n & s' & -> & Hc).
  destruct Hc as [e0 Hr | ls Hr Hn | ls w0 Hr Hn Hw | ls e0 w0 Hr Hn Hw];
    rewrite Hread in Hr; try discriminate; injection Hr as <-;
    try lia; rewrite Hwrite in Hw; try discriminate.
  injection Hw as <- <-. reflexivity.
Qed.

(** A per-file operation writes at most once, and only a file from which
    the scan removed lines. *)
Lemma clean_with_writes (scan : list line -> list line)
      (processed : DebugLogCleaner -> DebugLogCleaner)
      (p : Path) (s : state W E) (r : outcome E Z) (s' : state W E) :
  clean_with scan processed p s = (r, s') ->
  exists evs,
    trace s' = trace s ++ evs
    /\ (writes evs = []
        \/ (writes evs = [p]
            /\ exists lines, fs_readlines (world s) p = inr lines
                             /\ 0 < len lines - len (scan lines))).
Proof.
  intros Hrun. destruct (clean_with_inv _ _ _ _ _ _ Hrun) as (n & _ & Hc).
  destruct Hc as [e0 Hr | ls Hr Hn | ls w0 Hr Hn Hw | ls e0 w0 Hr Hn Hw];
    simpl; eexists; (split; [reflexivity|]); simpl; eauto.
Qed.

End PerFile.

(** ** The orchestrator *)

Section Run.
Context {W E : Type} `{FS : FileSystem W E}.

Lemma bind_print {A} (m : message E) (k : unit -> Py W E A) (s : state W E) :
  bind (print m) k s = k tt (emit [m] s).
Proof. reflexivity. Qed.

Lemma emit_emit (ms1 ms2 : list (message E)) (s : state W E) :
  emit ms2 (emit ms1 s) = emit (ms1 ++ ms2) s.
Proof. unfold emit. simpl. rewrite map_app, app_assoc. reflexivity. Qed.

Lemma bind_find_files {A} (pattern : string) (k : list Path -> Py W E A)
      (s : state W E) :
  bind (find_files pattern) k s =
    match found (world s) (project_root (self s)) pattern with
    | inr files => k files s
    | inl e => (Raise e, s)
    end.
Proof.
  unfold bind, find_files, found.
  destruct (find_files_loop (world s)
              (rglob (world s) (project_root (self s)) pattern) []);
    reflexivity.
Qed.

(** [run] is its two searches and its two loops with the fixed output
    around them; an exception of a search or of a loop ends it. *)
Lemma run_unfold (s : state W E) :
  run s =
    match found (world s) (project_root (self s)) "*.dart" with
    | inl e => (Raise e, emit (heading (self s)) s)
    | inr dart_files =>
        match sweep clean_dart_file dart_files (emit (heading (self s)) s) with
        | (Raise e, s1) => (Raise e, s1)
        | (Return _, s1) =>
            match found (world s1) (project_root (self s1)) "*.swift" with
            | inl e => (Raise e, emit interlude s1)
            | inr swift_files =>
                match sweep clean_swift_file swift_files
                        (emit interlude s1) with
                | (Raise e, s2) => (Raise e, s2)
                | (Return _, s2) => (Return tt, emit (summary (self s2)) s2)
                end
            end
        end
    end.
Proof.
  unfold run.
  do 2 (rewrite bind_print; cbv beta).
  unfold bind at 1. unfold get_self at 1. cbv beta iota.
  do 3 (rewrite bind_print; cbv beta).
  rewrite bind_find_files.
  rewrite !emit_emit. simpl app. simpl world. simpl self.
  change [Banner; BannerRule; Scanning (project_root (self s)); Blank;
          ProcessingDart] with (@heading E (self s)).
  destruct (found (world s) (project_root (self s)) "*.dart")
    as [e | dart_files]; [reflexivity |].
  unfold bind at 1.
  destruct (sweep clean_dart_file dart_files (emit (heading (self s)) s))
    as [[[] | e] s1]; [| reflexivity].
  do 2 (rewrite bind_print; cbv beta).
  rewrite bind_find_files.
  rewrite !emit_emit. simpl app. simpl world. simpl self.
  change [Blank; ProcessingSwift] with (@interlude E).
  destruct (found (world s1) (project_root (self s1)) "*.swift")
    as [e | swift_files]; [reflexivity |].
  unfold bind at 1.
  destruct (sweep clean_swift_file swift_files (emit interlude s1))
    as [[[] | e] s2]; [| reflexivity].
  do 3 (rewrite bind_print; cbv beta).
  unfold bind at 1. unfold get_self at 1. cbv beta iota.
  do 3 (rewrite bind_print; cbv beta).
  unfold summary, emit, print, record, bind. simpl.
  destruct (0 <? total_lines_removed (self s2)); simpl;
    rewrite <- ?app_assoc; reflexivity.
Qed.

Lemma sweep_cons (clean : Path -> Py W E Z) (p : Path) (files : list Path)
      (s : state W E) :
  sweep clean (p :: files) s =
    match clean p s with
    | (Return _, s') => sweep clean files s'
    | (Raise e, s') => (Raise e, s')
    end.
Proof.
  unfold sweep. simpl. unfold bind.
  destruct (clean p s) as [[n|e] s']; reflexivity.
Qed.

Lemma reads_app (a b : list (event E)) : reads (a ++ b) = reads a ++ reads b.
Proof.
  induction a as [|[q|q ls|m] a IH]; simpl; rewrite ?IH; reflexivity.
Qed.

Lemma writes_app (a b : list (event E)) :
  writes (a ++ b) = writes a ++ writes b.
Proof.
  induction a as [|[q|q ls|m] a IH]; simpl; rewrite ?IH; reflexivity.
Qed.

Lemma reads_prints (ms : list (message E)) : reads (map Print ms) = [].
Proof. induction ms; simpl; auto. Qed.

Lemma writes_prints (ms : list (message E)) : writes (map Print ms) = [].
Proof. induction ms; simpl; auto. Qed.

(** One per-file operation opens its file once for reading and at most
    once for writing, and opens nothing else. *)
Lemma cleaned_events (scan : list line -> list line)
      (processed : DebugLogCleaner -> DebugLogCleaner)
      (p : Path) (s s' : state W E) (n : Z) :
  cleaned scan processed p s n s' ->
  exists evs, trace s' = trace s ++ evs /\ reads evs = [p]
              /\ sublist (writes evs) [p].
Proof.
  intros [e Hr | lines Hr Hn | lines w' Hr Hn Hw | lines e w' Hr Hn Hw];
    simpl; eexists; (split; [reflexivity|]); simpl; split;
    try reflexivity; repeat constructor.
Qed.

Lemma cleaned_root (scan : list line -> list line)
      (processed : DebugLogCleaner -> DebugLogCleaner)
      (p : Path) (s s' : state W E) (n : Z) :
  (forall c, project_root (processed c) = project_root c) ->
  cleaned scan processed p s n s' ->
  project_root (self s') = project_root (self s).
Proof.
  intros Hp [e Hr | lines Hr Hn | lines w' Hr Hn Hw | lines e w' Hr Hn Hw];
    simpl; rewrite ?Hp; reflexivity.
Qed.

(** A loop of [run] returns normally whatever happens to the files; it
    opens every file of its list for reading, in order, and writes only
    files of its list, each at most once per visit. *)
Lemma sweep_visits (scan : list line -> list line)
      (processed : DebugLogCleaner -> DebugLogCleaner) :
  (forall c, project_root (processed c) = project_root c) ->
  forall files (s : state W E),
  exists s' evs,
    sweep (clean_with scan processed) files s = (Return tt, s')
    /\ trace s' = trace s ++ evs
    /\ reads evs = files
    /\ sublist (writes evs) files
    /\ project_root (self s') = project_root (self s).
Proof.
  intros Hp. induction files as [|p files IH]; intros s.
  - exists s, []. rewrite app_nil_r. repeat split. constructor.
  - rewrite sweep_cons.
    destruct (clean_with_cleaned scan processed p s) as (n & s1 & -> & Hc).
    destruct (cleaned_events _ _ _ _ _ _ Hc) as (ev1 & Ht1 & Hr1 & Hw1).
    destruct (IH s1) as (s' & evs & -> & Ht & Hr & Hw & Hroot).
    exists s', (ev1 ++ evs). split; [reflexivity|].
    rewrite Ht, Ht1, <- app_assoc, reads_app, writes_app, Hr1, Hr, Hroot.
    repeat split.
    + change (p :: files) with ([p] ++ files). apply sublist_app; assumption.
    + exact (cleaned_root _ _ _ _ _ _ Hp Hc).
Qed.

(** On files that the scan leaves as they are, a loop of [run] writes
    nothing and removes nothing. *)
Lemma sweep_fixed (scan : list line -> list line)
      (processed : DebugLogCleaner -> DebugLogCleaner) :
  (forall c, project_root (processed c) = project_root c) ->
  (forall c, total_lines_removed (processed c) = total_lines_removed c) ->
  forall files (s : state W E),
    (forall p lines, In p files -> fs_readlines (world s) p = inr lines ->
                     scan lines = lines) ->
    exists s' evs,
      sweep (clean_with scan processed) files s = (Return tt, s')
      /\ trace s' = trace s ++ evs
      /\ writes evs = []
      /\ world s' = world s
      /\ total_lines_removed (self s') = total_lines_removed (self s)
      /\ project_root (self s') = project_root (self s).
Proof.
  intros Hp Ht. induction files as [|p files IH]; intros s Hfix.
  - exists s, []. rewrite app_nil_r. repeat split.
  - rewrite sweep_cons.
    destruct (clean_with_cleaned scan processed p s) as (n & s1 & -> & Hc).
    assert (Hstep : exists ev1, trace s1 = trace s ++ ev1 /\ writes ev1 = []
                     /\ world s1 = world s
                     /\ total_lines_removed (self s1)
                        = total_lines_removed (self s)
                     /\ project_root (self s1) = project_root (self s)).
    { destruct Hc as [e Hr | lines Hr Hn | lines w' Hr Hn Hw
                     | lines e w' Hr Hn Hw]; simpl.
      - eexists. split; [reflexivity|]. repeat split.
      - eexists. split; [reflexivity|]. rewrite Hp, Ht. repeat split.
      - rewrite (Hfix p lines) in Hn by (simpl; auto). lia.
      - rewrite (Hfix p lines) in Hn by (simpl; auto). lia. }
    destruct Hstep as (ev1 & Ht1 & Hw1 & Hworld & Htot & Hroot).
    destruct (IH s1) as (s' & evs & -> & Ht' & Hw' & Hworld' & Htot' & Hroot').
    { intros q lines Hq Hr. rewrite Hworld in Hr.
      apply (Hfix q lines); simpl; auto. }
    exists s', (ev1 ++ evs). split; [reflexivity|].
    rewrite Ht', Ht1, <- app_assoc, writes_app, Hw1, Hw'.
    repeat split; congruence.
Qed.

Lemma incr_dart_root (c : DebugLogCleaner) :
  project_root (incr_dart_files_processed c) = project_root c.
Proof. reflexivity. Qed.

Lemma incr_swift_root (c : DebugLogCleaner) :
  project_root (incr_swift_files_processed c) = project_root c.
Proof. reflexivity. Qed.

(** [run] ends with the exception of the first search that raises, and
    returns when none does; between the fixed output it opens, for reading
    and in order, every Dart file found and then every Swift file found,
    and it writes only files among those. *)
Lemma run_visits (s : state W E) :
  exists r s' evs dart_files swift_files w1,
    run s = (r, s')
    /\ searched s r dart_files swift_files w1
    /\ trace s' = trace s ++ evs ++ map Print (closing r (self s'))
    /\ reads evs = dart_files ++ swift_files
    /\ sublist (writes evs) (dart_files ++ swift_files).
Proof.
  rewrite run_unfold, clean_dart_file_shape, clean_swift_file_shape.
  destruct (found (world s) (project_root (self s)) "*.dart")
    as [e | dart_files] eqn:Hd.
  { exists (Raise e), (emit (heading (self s)) s),
           (map Print (heading (self s))), [], [], (world s).
    split; [reflexivity |]. split; [constructor; exact Hd |].
    simpl. rewrite ?app_nil_r. repeat split. constructor. }
  destruct (sweep_visits clean_dart_lines incr_dart_files_processed
              incr_dart_root dart_files (emit (heading (self s)) s))
    as (s1 & ev1 & Hs1 & Ht1 & Hr1 & Hw1 & Hroot1).
  rewrite Hs1.
  simpl in Hroot1, Ht1. rewrite Hroot1.
  destruct (found (world s1) (project_root (self s)) "*.swift")
    as [e | swift_files] eqn:Hsw.
  { exists (Raise e), (emit interlude s1),
           (map Print (heading (self s)) ++ ev1 ++ map Print interlude),
           dart_files, [], (world s1).
    split; [reflexivity |].
    split; [exact (SwiftSearchRaised s e dart_files (world s1) Hd Hsw) |].
    rewrite !reads_app, !writes_app, !reads_prints, !writes_prints, Hr1,
      !app_nil_r.
    simpl. rewrite Ht1, <- !app_assoc. repeat split. exact Hw1. }
  destruct (sweep_visits clean_swift_lines incr_swift_files_processed
              incr_swift_root swift_files (emit interlude s1))
    as (s2 & ev2 & Hs2 & Ht2 & Hr2 & Hw2 & Hroot2).
  rewrite Hs2.
  simpl in Hroot2, Ht2.
  exists (Return tt), (emit (summary (self s2)) s2),
         (map Print (heading (self s)) ++ ev1 ++ map Print interlude ++ ev2),
         dart_files, swift_files, (world s1).
  split; [reflexivity |].
  split; [exact (BothSearched s dart_files swift_files (world s1) Hd Hsw) |].
  repeat split.
  - simpl. rewrite Ht2, Ht1, <- !app_assoc. reflexivity.
  - rewrite !reads_app, !reads_prints, Hr1, Hr2. reflexivity.
  - rewrite !writes_app, !writes_prints. simpl.
    apply sublist_app; assumption.
Qed.

End Run.

(** ** The generic properties at the two scans *)

Lemma clean_dart_lines_sublist (ls : list line) :
  sublist (clean_dart_lines ls) ls.
Proof.
  apply scan_sublist
    with (opens := re_match kdebug_block_re)
         (removes := should_remove dart_patterns)
         (skip := skip_brace_block 1);
    [apply skip_brace_block_suffix | reflexivity | reflexivity].
Qed.

Lemma clean_swift_lines_sublist (ls : list line) :
  sublist (clean_swift_lines ls) ls.
Proof.
  apply scan_sublist
    with (opens := re_match if_debug_re)
         (removes := should_remove swift_patterns)
         (skip := skip_to_endif);
    [apply skip_to_endif_suffix | reflexivity | reflexivity].
Qed.

Lemma clean_dart_lines_plain (ls : list line) :
  forallb dart_plain ls = true -> clean_dart_lines ls = ls.
Proof.
  apply scan_fixed
    with (opens := re_match kdebug_block_re)
         (removes := should_remove dart_patterns)
         (skip := skip_brace_block 1); reflexivity.
Qed.

Lemma clean_swift_lines_plain (ls : list line) :
  forallb swift_plain ls = true -> clean_swift_lines ls = ls.
Proof.
  apply scan_fixed
    with (opens := re_match if_debug_re)
         (removes := should_remove swift_patterns)
         (skip := skip_to_endif); reflexivity.
Qed.

Lemma clean_dart_lines_idempotent (ls : list line) :
  clean_dart_lines (clean_dart_lines ls) = clean_dart_lines ls.
Proof.
  apply scan_idempotent
    with (opens := re_match kdebug_block_re)
         (removes := should_remove dart_patterns)
         (skip := skip_brace_block 1);
    [apply skip_brace_block_suffix | reflexivity | reflexivity].
Qed.

Lemma clean_swift_lines_idempotent (ls : list line) :
  clean_swift_lines (clean_swift_lines ls) = clean_swift_lines ls.
Proof.
  apply scan_idempotent
    with (opens := re_match if_debug_re)
         (removes := should_remove swift_patterns)
         (skip := skip_to_endif);
    [apply skip_to_endif_suffix | reflexivity | reflexivity].
Qed.

Lemma sublist_incl {A} (l1 l2 : list A) : sublist l1 l2 -> incl l1 l2.
Proof.
  induction 1 as [| x l1 l2 _ IH | x l1 l2 _ IH]; intros y Hy.
  - exact Hy.
  - destruct Hy as [-> | Hy]; [left; reflexivity | right; apply IH, Hy].
  - right. apply IH, Hy.
Qed.

(** On a tree whose Dart and Swift files are left as they are by their
    scans, [run] writes nothing, changes no file and adds nothing to the
    total, whether a search raises or not; and it returns when both
    searches do. *)
Lemma run_fixed {W E} `{FS : FileSystem W E} (s : state W E) :
  (forall dart_files p lines,
      found (world s) (project_root (self s)) "*.dart" = inr dart_files ->
      In p dart_files ->
      fs_readlines (world s) p = inr lines -> clean_dart_lines lines = lines) ->
  (forall swift_files p lines,
      found (world s) (project_root (self s)) "*.swift" = inr swift_files ->
      In p swift_files ->
      fs_readlines (world s) p = inr lines -> clean_swift_lines lines = lines) ->
  exists r s' evs,
    run s = (r, s')
    /\ trace s' = trace s ++ evs ++ map Print (closing r (self s'))
    /\ writes evs = []
    /\ world s' = world s
    /\ total_lines_removed (self s') = total_lines_removed (self s)
    /\ (forall dart_files swift_files,
           found (world s) (project_root (self s)) "*.dart" = inr dart_files ->
           found (world s) (project_root (self s)) "*.swift" = inr swift_files ->
           r = Return tt).
Proof.
  intros Hdart Hswift.
  rewrite run_unfold, clean_dart_file_shape, clean_swift_file_shape.
  destruct (found (world s) (project_root (self s)) "*.dart")
    as [e | dart_files] eqn:Hd.
  { exists (Raise e), (emit (heading (self s)) s),
           (map Print (heading (self s))).
    split; [reflexivity |]. rewrite writes_prints. simpl.
    rewrite ?app_nil_r. repeat split. intros d f Hdd. discriminate Hdd. }
  destruct (sweep_fixed clean_dart_lines incr_dart_files_processed
              incr_dart_root (fun c => eq_refl)
              dart_files (emit (heading (self s)) s)
              (fun q lines => Hdart dart_files q lines eq_refl))
    as (s1 & ev1 & Hs1 & Ht1 & Hw1 & Hworld1 & Htot1 & Hroot1).
  simpl in Ht1, Hworld1, Htot1, Hroot1. rewrite Hs1, Hroot1, Hworld1.
  destruct (found (world s) (project_root (self s)) "*.swift")
    as [e | swift_files] eqn:Hsw.
  { exists (Raise e), (emit interlude s1),
           (map Print (heading (self s)) ++ ev1 ++ map Print interlude).
    split; [reflexivity |].
    rewrite !writes_app, !writes_prints, Hw1. simpl.
    rewrite Ht1, <- !app_assoc, ?app_nil_r.
    repeat split; try assumption. intros d f _ Hf. discriminate Hf. }
  destruct (sweep_fixed clean_swift_lines incr_swift_files_processed
              incr_swift_root (fun c => eq_refl)
              swift_files (emit interlude s1))
    as (s2 & ev2 & Hs2 & Ht2 & Hw2 & Hworld2 & Htot2 & Hroot2).
  { simpl. rewrite Hworld1. intros q lines. exact (Hswift swift_files q lines eq_refl). }
  simpl in Ht2, Hworld2, Htot2, Hroot2. rewrite Hs2.
  exists (Return tt), (emit (summary (self s2)) s2),
         (map Print (heading (self s)) ++ ev1 ++ map Print interlude ++ ev2).
  split; [reflexivity |].
  split; [| split; [| split; [| split]]].
  - simpl. rewrite Ht2, Ht1, <- !app_assoc. reflexivity.
  - rewrite !writes_app, !writes_prints, Hw1, Hw2. reflexivity.
  - simpl. congruence.
  - simpl. congruence.
  - reflexivity.
Qed.





Lemma find_files_loop_raised {W E} `{FS : FileSystem W E} (w : W)
      (candidates files : list Path) (e : E) :
  find_files_loop w candidates files = inl e ->
  exists pre p post,
    candidates = pre ++ p :: post
    /\ existsb (denied w) pre = false
    /\ existsb startswith_dot p = false
    /\ fs_is_file w p = inl e.
Proof.
  revert files. induction candidates as [|c cs IH]; intros files Hloop;
    simpl in Hloop; [discriminate |].
  destruct (existsb startswith_dot c) eqn:Hdot.
  - destruct (IH _ Hloop) as (pre & p & post & -> & Hpre & Hp & He).
    exists (c :: pre), p, post. repeat split; try assumption.
    simpl. unfold denied at 1. rewrite Hdot. exact Hpre.
  - destruct (fs_is_file w c) as [e' | b] eqn:Hfile.
    + injection Hloop as ->. exists [], c, cs. repeat split; assumption.
    + assert (Hrest : exists files', find_files_loop w cs files' = inl e)
        by (destruct b; eauto).
      destruct Hrest as [files' Hrest].
      destruct (IH _ Hrest) as (pre & p & post & -> & Hpre & Hp & He).
      exists (c :: pre), p, post. repeat split; try assumption.
      simpl. unfold denied at 1. rewrite Hdot, Hfile. exact Hpre.
Qed.



(** ** The properties of the specification *)

(** Claim C1.  On the example of the specification, the lines
    [print("x");], [if (kDebugMode) {], [  doSomething();], [}] and
    [return;], the Dart scan keeps exactly [return;] and four lines are
    removed; [clean_dart_file] on a file holding these lines returns 4 and
    leaves the file with that single line. *)
Theorem spec_example_dart :
  clean_dart_lines
    [ py "print(" ++ [DQUOTE] ++ py "x" ++ [DQUOTE] ++ ln ");";
      ln "if (kDebugMode) {"; ln "  doSomething();"; ln "}"; ln "return;" ]
  = [ln "return;"]
  /\ len Sample.spec_lines - len (clean_dart_lines Sample.spec_lines) = 4
  /\ fst (clean_dart_file Sample.debug_dart
            (start Sample.root Sample.project)) = Return 4
  /\ fs_readlines
       (world (snd (clean_dart_file Sample.debug_dart
                      (start Sample.root Sample.project))))
       Sample.debug_dart = inr [ln "return;"].
Proof. repeat split; vm_compute; reflexivity. Qed.

(** Claim C2.  A [kDebugMode] opener, a body that keeps the counter
    started at 1 positive (so every block nested in the body is closed in
    the body, however deep), and a line that brings the counter to 0 are
    removed as one unit: the inner loop stops exactly behind the closing
    line, the outer loop emits none of these lines, and wherever the block
    stands in a file the output is the output for the file without it, the
    count of removed lines going up by the length of the block. *)
Theorem dart_nested_block_removed
        (pre : list line) (opener : line) (body : list line) (closer : line)
        (post : list line) :
  re_match kdebug_block_re opener = true ->
  unclosed 1 body = true ->
  counter_after 1 (body ++ [closer]) = 0 ->
  skip_brace_block 1 (body ++ closer :: post) = post
  /\ clean_dart_lines (opener :: body ++ closer :: post)
     = clean_dart_lines post
  /\ clean_dart_lines (pre ++ opener :: body ++ closer :: post)
     = clean_dart_lines (pre ++ post)
  /\ len (pre ++ opener :: body ++ closer :: post)
     - len (clean_dart_lines (pre ++ opener :: body ++ closer :: post))
     = len (pre ++ post) - len (clean_dart_lines (pre ++ post))
       + (len body + 2).
Proof.
  intros Hopener Hbody Hzero.
  assert (Hskip : skip_brace_block 1 (body ++ closer :: post) = post).
  { change 1 with (0 + 1) at 1.
    rewrite skip_brace_block_balanced by (assumption || lia).
    apply skip_brace_block_closed. lia. }
  pose proof (dart_block_transparent opener body closer post
                Hopener Hbody Hzero) as Hunit.
  repeat split.
  - exact Hskip.
  - exact (Hunit []).
  - exact (Hunit pre).
  - rewrite (Hunit pre). unfold len.
    rewrite !length_app. simpl. rewrite !length_app. simpl. lia.
Qed.

Lemma dart_nested_block_removed_witness :
  re_match kdebug_block_re Sample.dart_opener = true
  /\ unclosed 1 Sample.dart_body = true
  /\ counter_after 1 (Sample.dart_body ++ [Sample.dart_closer]) = 0
  /\ clean_dart_lines
       (Sample.dart_pre
        ++ Sample.dart_opener
           :: Sample.dart_body ++ Sample.dart_closer :: Sample.dart_post)
     = clean_dart_lines (Sample.dart_pre ++ Sample.dart_post).
Proof.
  assert (H1 : re_match kdebug_block_re Sample.dart_opener = true)
    by (vm_compute; reflexivity).
  assert (H2 : unclosed 1 Sample.dart_body = true)
    by (vm_compute; reflexivity).
  assert (H3 : counter_after 1 (Sample.dart_body ++ [Sample.dart_closer]) = 0)
    by (vm_compute; reflexivity).
  split; [exact H1 | split; [exact H2 | split; [exact H3 |]]].
  exact (proj1 (proj2 (proj2
           (dart_nested_block_removed Sample.dart_pre Sample.dart_opener
              Sample.dart_body Sample.dart_closer Sample.dart_post
              H1 H2 H3)))).
Defined.

(** Claim C3.  An [#if DEBUG] line, the lines up to the first [#endif]
    line behind it and that [#endif] line are all discarded: the inner
    loop stops exactly behind the [#endif] line, and the lines behind it go
    through the normal scan, as a file of their own would. *)
Theorem swift_debug_block_removed
        (pre : list line) (start_line : line) (mid : list line)
        (end_line : line) (post : list line) :
  re_match if_debug_re start_line = true ->
  Forall (fun l => re_match endif_re l = false) mid ->
  re_match endif_re end_line = true ->
  skip_to_endif (mid ++ end_line :: post) = post
  /\ clean_swift_lines (start_line :: mid ++ end_line :: post)
     = clean_swift_lines post
  /\ clean_swift_lines (pre ++ start_line :: mid ++ end_line :: post)
     = clean_swift_lines pre ++ clean_swift_lines post.
Proof.
  intros Hstart Hmid Hend.
  apply Forall_not_endif in Hmid.
  pose proof (swift_block_split start_line mid end_line post
                Hstart Hmid Hend) as Hsplit.
  repeat split.
  - destruct (skip_to_endif_none mid (end_line :: post) Hmid) as [-> _].
    rewrite skip_to_endif_cons. unfold is_endif. rewrite Hend. reflexivity.
  - exact (Hsplit []).
  - exact (Hsplit pre).
Qed.

Lemma swift_debug_block_removed_witness :
  re_match if_debug_re Sample.swift_start = true
  /\ Forall (fun l => re_match endif_re l = false) Sample.swift_mid
  /\ re_match endif_re Sample.swift_term = true
  /\ clean_swift_lines
       (Sample.swift_pre
        ++ Sample.swift_start
           :: Sample.swift_mid ++ Sample.swift_term :: Sample.swift_post)
     = clean_swift_lines Sample.swift_pre
       ++ clean_swift_lines Sample.swift_post.
Proof.
  assert (H1 : re_match if_debug_re Sample.swift_start = true)
    by (vm_compute; reflexivity).
  assert (H2 : Forall (fun l => re_match endif_re l = false) Sample.swift_mid)
    by (repeat constructor).
  assert (H3 : re_match endif_re Sample.swift_term = true)
    by (vm_compute; reflexivity).
  split; [exact H1 | split; [exact H2 | split; [exact H3 |]]].
  exact (proj2 (proj2
           (swift_debug_block_removed Sample.swift_pre Sample.swift_start
              Sample.swift_mid Sample.swift_term Sample.swift_post
              H1 H2 H3))).
Defined.

(** Claim C4.  A block opener whose end never comes takes the rest of the
    file with it: the inner loop runs to the end of the file, and the scan
    returns what it kept before the opener.  For a [kDebugMode] block the
    end never comes when the counter started at 1 stays positive after
    every later line; that it never is zero is not enough, since the inner
    loop stops below zero as well.  For an [#if DEBUG] block it never comes
    when no later line is an [#endif] line. *)
Theorem unterminated_block_discards_rest
        (pre : list line) (opener : line) (rest : list line) :
  (re_match kdebug_block_re opener = true ->
   unclosed 1 rest = true ->
   skip_brace_block 1 rest = []
   /\ clean_dart_lines (opener :: rest) = []
   /\ clean_dart_lines (pre ++ opener :: rest) = clean_dart_lines pre)
  /\ (re_match if_debug_re opener = true ->
      Forall (fun l => re_match endif_re l = false) rest ->
      skip_to_endif rest = []
      /\ clean_swift_lines (opener :: rest) = []
      /\ clean_swift_lines (pre ++ opener :: rest) = clean_swift_lines pre).
Proof.
  split.
  - intros Hopener Hrest.
    pose proof (dart_block_unterminated opener rest Hopener Hrest) as H.
    repeat split.
    + apply skip_brace_block_unclosed_nil, Hrest.
    + exact (H []).
    + exact (H pre).
  - intros Hopener Hrest. apply Forall_not_endif in Hrest.
    pose proof (swift_block_unterminated opener rest Hopener Hrest) as H.
    repeat split.
    + exact (proj2 (skip_to_endif_none rest [] Hrest)).
    + exact (H []).
    + exact (H pre).
Qed.

Lemma unterminated_block_discards_rest_witness :
  (re_match kdebug_block_re Sample.dart_opener = true
   /\ unclosed 1 Sample.dart_body = true
   /\ clean_dart_lines
        (Sample.dart_pre ++ Sample.dart_opener :: Sample.dart_body)
      = clean_dart_lines Sample.dart_pre)
  /\ (re_match if_debug_re Sample.swift_start = true
      /\ Forall (fun l => re_match endif_re l = false) Sample.swift_mid
      /\ clean_swift_lines
           (Sample.swift_pre ++ Sample.swift_start :: Sample.swift_mid)
         = clean_swift_lines Sample.swift_pre).
Proof.
  assert (H1 : re_match kdebug_block_re Sample.dart_opener = true)
    by (vm_compute; reflexivity).
  assert (H2 : unclosed 1 Sample.dart_body = true)
    by (vm_compute; reflexivity).
  assert (H3 : re_match if_debug_re Sample.swift_start = true)
    by (vm_compute; reflexivity).
  assert (H4 : Forall (fun l => re_match endif_re l = false) Sample.swift_mid)
    by (repeat constructor).
  split; (split; [assumption | split; [assumption |]]).
  - exact (proj2 (proj2
             (proj1 (unterminated_block_discards_rest Sample.dart_pre
                       Sample.dart_opener Sample.dart_body) H1 H2))).
  - exact (proj2 (proj2
             (proj2 (unterminated_block_discards_rest Sample.swift_pre
                       Sample.swift_start Sample.swift_mid) H3 H4))).
Defined.

(** Claim C4, the case it leaves out.  After the opener, the line [}}]
    takes the counter from 1 to -1: it never is zero, the inner loop stops
    behind that line all the same, and the line that follows is kept. *)
Lemma unterminated_block_counterexample :
  re_match kdebug_block_re (ln "if (kDebugMode) {") = true
  /\ never_zero 1 [ln "}}"; ln "work();"] = true
  /\ unclosed 1 [ln "}}"; ln "work();"] = false
  /\ counter_after 1 [ln "}}"] = -1
  /\ counter_after 1 [ln "}}"; ln "work();"] = -1
  /\ skip_brace_block 1 [ln "}}"; ln "work();"] = [ln "work();"]
  /\ clean_dart_lines [ln "if (kDebugMode) {"; ln "}}"; ln "work();"]
     = [ln "work();"]
  /\ clean_dart_lines [ln "if (kDebugMode) {"; ln "}}"; ln "work();"]
     <> clean_dart_lines [].
Proof. repeat split; vm_compute; (reflexivity || discriminate). Qed.

(** Claim C5.  Both scans are idempotent: the output of a scan is left as
    it is by the same scan, which removes no line from it.  Hence a run
    over a tree in which every Dart and Swift file found holds the output
    of its scan writes nothing, changes no file, and has a total of 0
    removed lines, which it reports, with the note that nothing was found,
    when both searches return. *)
Theorem filter_idempotent :
  (forall ls : list line,
      clean_dart_lines (clean_dart_lines ls) = clean_dart_lines ls
      /\ len (clean_dart_lines ls)
         - len (clean_dart_lines (clean_dart_lines ls)) = 0)
  /\ (forall ls : list line,
         clean_swift_lines (clean_swift_lines ls) = clean_swift_lines ls
         /\ len (clean_swift_lines ls)
            - len (clean_swift_lines (clean_swift_lines ls)) = 0)
  /\ (forall (W E : Type) (FS : FileSystem W E) (root : Path) (w : W),
         (forall dart_files p lines,
             found w root "*.dart" = inr dart_files -> In p dart_files ->
             fs_readlines w p = inr lines ->
             exists original, lines = clean_dart_lines original) ->
         (forall swift_files p lines,
             found w root "*.swift" = inr swift_files -> In p swift_files ->
             fs_readlines w p = inr lines ->
             exists original, lines = clean_swift_lines original) ->
         exists r s' evs,
           run (start root w) = (r, s')
           /\ total_lines_removed (self s') = 0
           /\ world s' = w
           /\ writes (trace s') = []
           /\ (forall dart_files swift_files,
                  found w root "*.dart" = inr dart_files ->
                  found w root "*.swift" = inr swift_files ->
                  r = Return tt
                  /\ trace s'
                     = evs ++ [Print (TotalRemoved 0); Print Blank;
                               Print NothingFound])).
Proof.
  split; [|split].
  - intros ls. rewrite clean_dart_lines_idempotent. split; [reflexivity | lia].
  - intros ls. rewrite clean_swift_lines_idempotent. split; [reflexivity | lia].
  - intros W E FS root w Hdart Hswift.
    destruct (run_fixed (start root w))
      as (r & s' & evs & Hrun & Ht & Hw & Hworld & Htot & Hret).
    + intros d p lines Hd Hp Hr. destruct (Hdart d p lines Hd Hp Hr) as [o ->].
      apply clean_dart_lines_idempotent.
    + intros f p lines Hf Hp Hr. destruct (Hswift f p lines Hf Hp Hr) as [o ->].
      apply clean_swift_lines_idempotent.
    + simpl in Ht, Hworld, Htot, Hret.
      exists r, s',
        (evs ++ [Print Blank; Print Summary; Print SummaryRule;
                 Print (DartProcessed (dart_files_processed (self s')));
                 Print (SwiftProcessed (swift_files_processed (self s')))]).
      split; [exact Hrun|]. split; [exact Htot|]. split; [exact Hworld|].
      split.
      * rewrite Ht, writes_app, Hw, writes_prints. reflexivity.
      * intros d f Hd Hf. rewrite (Hret d f Hd Hf) in Ht.
        split; [exact (Hret d f Hd Hf) |].
        rewrite Ht. unfold closing, summary. rewrite Htot. simpl.
        rewrite <- app_assoc. reflexivity.
Qed.

Lemma filter_idempotent_witness :
  (forall dart_files p lines,
      found Sample.cleaned_project Sample.root "*.dart" = inr dart_files ->
      In p dart_files ->
      fs_readlines Sample.cleaned_project p = inr lines ->
      exists original, lines = clean_dart_lines original)
  /\ (forall swift_files p lines,
         found Sample.cleaned_project Sample.root "*.swift" = inr swift_files ->
         In p swift_files ->
         fs_readlines Sample.cleaned_project p = inr lines ->
         exists original, lines = clean_swift_lines original)
  /\ exists r s' evs,
       run (start Sample.root Sample.cleaned_project) = (r, s')
       /\ total_lines_removed (self s') = 0
       /\ world s' = Sample.cleaned_project
       /\ writes (trace s') = []
       /\ (forall dart_files swift_files,
              found Sample.cleaned_project Sample.root "*.dart"
              = inr dart_files ->
              found Sample.cleaned_project Sample.root "*.swift"
              = inr swift_files ->
              r = Return tt
              /\ trace s'
                 = evs ++ [Print (TotalRemoved 0); Print Blank;
                           Print NothingFound]).
Proof.
  assert (Hdart : forall dart_files p lines,
             found Sample.cleaned_project Sample.root "*.dart"
             = inr dart_files ->
             In p dart_files ->
             fs_readlines Sample.cleaned_project p = inr lines ->
             exists original, lines = clean_dart_lines original).
  { intros d p lines Hd Hp Hr. vm_compute in Hd. injection Hd as <-.
    destruct Hp as [<- | [<- | [<- | []]]]; vm_compute in Hr;
      try discriminate; injection Hr as <-.
    - exists Sample.plain_lines. vm_compute. reflexivity.
    - exists Sample.spec_lines. vm_compute. reflexivity. }
  assert (Hswift : forall swift_files p lines,
             found Sample.cleaned_project Sample.root "*.swift"
             = inr swift_files ->
             In p swift_files ->
             fs_readlines Sample.cleaned_project p = inr lines ->
             exists original, lines = clean_swift_lines original).
  { intros f p lines Hf Hp Hr. vm_compute in Hf. injection Hf as <-.
    destruct Hp as [<- | []]; vm_compute in Hr; injection Hr as <-.
    exists (Sample.swift_pre
            ++ Sample.swift_start
               :: Sample.swift_mid ++ Sample.swift_term :: Sample.swift_post).
    vm_compute. reflexivity. }
  split; [exact Hdart | split; [exact Hswift |]].
  exact (proj2 (proj2 filter_idempotent) _ _ _ Sample.root
           Sample.cleaned_project Hdart Hswift).
Defined.

(** Claim C6.  For both scans the output is a subsequence of the input:
    the surviving lines are lines of the input, in their original order,
    and there are no more of them than lines in the input. *)
Theorem filter_output_subsequence (ls : list line) :
  (sublist (clean_dart_lines ls) ls
   /\ incl (clean_dart_lines ls) ls
   /\ len (clean_dart_lines ls) <= len ls)
  /\ (sublist (clean_swift_lines ls) ls
      /\ incl (clean_swift_lines ls) ls
      /\ len (clean_swift_lines ls) <= len ls).
Proof.
  pose proof (clean_dart_lines_sublist ls) as Hd.
  pose proof (clean_swift_lines_sublist ls) as Hs.
  repeat split; try assumption; try (apply sublist_incl; assumption).
  - apply sublist_length in Hd. unfold len. lia.
  - apply sublist_length in Hs. unfold len. lia.
Qed.

(** Claim C7.  A file none of whose lines is a block opener or matches a
    per-line pattern comes out of the scan as it went in; the per-file
    operation returns 0, counts the file as processed and does not open
    it for writing.  In general a per-file operation opens its file for
    writing at most once, and only after the scan removed at least one
    line; and [run], however it ends, writes only files it found, one
    write at most for each entry of the lists found (so at most one per
    file when the lists name no file twice). *)
Theorem plain_file_not_written {W E} `{FS : FileSystem W E}
        (s : state W E) (p : Path) :
  (forall lines,
      fs_readlines (world s) p = inr lines ->
      forallb dart_plain lines = true ->
      clean_dart_lines lines = lines
      /\ len lines - len (clean_dart_lines lines) = 0
      /\ clean_dart_file p s =
           (Return 0,
            {| self := incr_dart_files_processed (self s); world := world s;
               trace := trace s ++ [OpenRead p] |}))
  /\ (forall lines,
         fs_readlines (world s) p = inr lines ->
         forallb swift_plain lines = true ->
         clean_swift_lines lines = lines
         /\ len lines - len (clean_swift_lines lines) = 0
         /\ clean_swift_file p s =
              (Return 0,
               {| self := incr_swift_files_processed (self s);
                  world := world s;
                  trace := trace s ++ [OpenRead p] |}))
  /\ (exists evs,
         trace (snd (clean_dart_file p s)) = trace s ++ evs
         /\ (writes evs = []
             \/ (writes evs = [p]
                 /\ exists lines,
                      fs_readlines (world s) p = inr lines
                      /\ 0 < len lines - len (clean_dart_lines lines))))
  /\ (exists evs,
         trace (snd (clean_swift_file p s)) = trace s ++ evs
         /\ (writes evs = []
             \/ (writes evs = [p]
                 /\ exists lines,
                      fs_readlines (world s) p = inr lines
                      /\ 0 < len lines - len (clean_swift_lines lines))))
  /\ (exists r s' evs dart_files swift_files w1,
         run s = (r, s')
         /\ searched s r dart_files swift_files w1
         /\ trace s' = trace s ++ evs
         /\ sublist (writes evs) (dart_files ++ swift_files)
         /\ (NoDup (dart_files ++ swift_files) -> NoDup (writes evs))).
Proof.
  split; [| split; [| split; [| split]]].
  - intros lines Hread Hplain.
    pose proof (clean_dart_lines_plain lines Hplain) as Hfix.
    split; [exact Hfix|]. split; [rewrite Hfix; lia|].
    rewrite clean_dart_file_shape.
    rewrite (clean_with_nothing_removed _ _ _ _ lines Hread);
      rewrite Hfix, Z.sub_diag; [reflexivity | lia].
  - intros lines Hread Hplain.
    pose proof (clean_swift_lines_plain lines Hplain) as Hfix.
    split; [exact Hfix|]. split; [rewrite Hfix; lia|].
    rewrite clean_swift_file_shape.
    rewrite (clean_with_nothing_removed _ _ _ _ lines Hread);
      rewrite Hfix, Z.sub_diag; [reflexivity | lia].
  - rewrite clean_dart_file_shape.
    apply (clean_with_writes clean_dart_lines incr_dart_files_processed p s
             (fst (clean_with clean_dart_lines incr_dart_files_processed p s))).
    apply surjective_pairing.
  - rewrite clean_swift_file_shape.
    apply (clean_with_writes clean_swift_lines incr_swift_files_processed p s
             (fst (clean_with clean_swift_lines incr_swift_files_processed p s))).
    apply surjective_pairing.
  - destruct (run_visits s)
      as (r & s' & evs & dart_files & swift_files & w1
          & Hrun & Hsearch & Ht & _ & Hw).
    exists r, s', (evs ++ map Print (closing r (self s'))),
           dart_files, swift_files, w1.
    split; [exact Hrun|]. split; [exact Hsearch|]. split; [exact Ht|].
    rewrite writes_app, writes_prints, app_nil_r.
    split; [exact Hw|]. intros Hnodup. exact (sublist_NoDup _ _ Hnodup Hw).
Qed.

Lemma plain_file_not_written_witness :
  fs_readlines Sample.project Sample.plain_dart = inr Sample.plain_lines
  /\ forallb dart_plain Sample.plain_lines = true
  /\ clean_dart_file Sample.plain_dart (start Sample.root Sample.project) =
       (Return 0,
        {| self := incr_dart_files_processed (init Sample.root);
           world := Sample.project;
           trace := [OpenRead Sample.plain_dart] |}).
Proof.
  assert (H1 : fs_readlines Sample.project Sample.plain_dart
               = inr Sample.plain_lines) by (vm_compute; reflexivity).
  assert (H2 : forallb dart_plain Sample.plain_lines = true)
    by (vm_compute; reflexivity).
  split; [exact H1 | split; [exact H2 |]].
  exact (proj2 (proj2
           (proj1 (plain_file_not_written
                     (start Sample.root Sample.project) Sample.plain_dart)
              Sample.plain_lines H1 H2))).
Defined.

(** Claim C8.  When reading the file raises, and when writing it back
    raises, the per-file operation prints the error, returns 0 and raises
    nothing; whatever the files do it returns normally, so a loop of [run]
    goes through all of its files.  [run] itself returns, with the summary
    as its last output, exactly when both searches return; otherwise it
    ends with what [is_file] raised, in the first search or in the second,
    on a candidate without hidden part, and prints no summary.  Either way
    it has opened every file it found. *)
Theorem io_errors_caught {W E} `{FS : FileSystem W E}
        (s : state W E) (p : Path) :
  (forall e,
      fs_readlines (world s) p = inl e ->
      clean_dart_file p s =
        (Return 0,
         {| self := self s; world := world s;
            trace := trace s ++ [OpenRead p; Print (Error (name p) e)] |})
      /\ clean_swift_file p s =
           (Return 0,
            {| self := self s; world := world s;
               trace := trace s ++ [OpenRead p; Print (Error (name p) e)] |}))
  /\ (forall lines e w',
         fs_readlines (world s) p = inr lines ->
         0 < len lines - len (clean_dart_lines lines) ->
         fs_writelines (world s) p (clean_dart_lines lines) = (Some e, w') ->
         clean_dart_file p s =
           (Return 0,
            {| self := self s; world := w';
               trace := trace s
                        ++ [OpenRead p; OpenWrite p (clean_dart_lines lines);
                            Print (Error (name p) e)] |}))
  /\ (forall lines e w',
         fs_readlines (world s) p = inr lines ->
         0 < len lines - len (clean_swift_lines lines) ->
         fs_writelines (world s) p (clean_swift_lines lines) = (Some e, w') ->
         clean_swift_file p s =
           (Return 0,
            {| self := self s; world := w';
               trace := trace s
                        ++ [OpenRead p; OpenWrite p (clean_swift_lines lines);
                            Print (Error (name p) e)] |}))
  /\ (exists n s', clean_dart_file p s = (Return n, s'))
  /\ (exists n s', clean_swift_file p s = (Return n, s'))
  /\ (forall files,
         exists s' evs,
           sweep clean_dart_file files s = (Return tt, s')
           /\ trace s' = trace s ++ evs /\ reads evs = files)
  /\ (forall files,
         exists s' evs,
           sweep clean_swift_file files s = (Return tt, s')
           /\ trace s' = trace s ++ evs /\ reads evs = files)
  /\ (exists r s' evs dart_files swift_files w1,
         run s = (r, s')
         /\ searched s r dart_files swift_files w1
         /\ trace s' = trace s ++ evs ++ map Print (closing r (self s'))
         /\ reads evs = dart_files ++ swift_files
         /\ (r = Return tt
             \/ exists e w' pattern pre q post,
                  r = Raise e
                  /\ (w' = world s \/ w' = w1)
                  /\ rglob w' (project_root (self s)) pattern
                     = pre ++ q :: post
                  /\ existsb (denied w') pre = false
                  /\ existsb startswith_dot q = false
                  /\ fs_is_file w' q = inl e)).
Proof.
  split; [| split; [| split; [| split; [| split; [| split; [| split]]]]]].
  - intros e Hread. split.
    + rewrite clean_dart_file_shape. apply clean_with_read_error, Hread.
    + rewrite clean_swift_file_shape. apply clean_with_read_error, Hread.
  - intros lines e w' Hread Hpos Hwrite. rewrite clean_dart_file_shape.
    apply clean_with_write_error; assumption.
  - intros lines e w' Hread Hpos Hwrite. rewrite clean_swift_file_shape.
    apply clean_with_write_error; assumption.
  - rewrite clean_dart_file_shape.
    destruct (clean_with_cleaned clean_dart_lines incr_dart_files_processed
                p s) as (n & s' & Heq & _). eauto.
  - rewrite clean_swift_file_shape.
    destruct (clean_with_cleaned clean_swift_lines incr_swift_files_processed
                p s) as (n & s' & Heq & _). eauto.
  - intros files. rewrite clean_dart_file_shape.
    destruct (sweep_visits clean_dart_lines incr_dart_files_processed
                incr_dart_root files s) as (s' & evs & Hs & Ht & Hr & _).
    exists s', evs. auto.
  - intros files. rewrite clean_swift_file_shape.
    destruct (sweep_visits clean_swift_lines incr_swift_files_processed
                incr_swift_root files s) as (s' & evs & Hs & Ht & Hr & _).
    exists s', evs. auto.
  - destruct (run_visits s)
      as (r & s' & evs & dart_files & swift_files & w1
          & Hrun & Hsearch & Ht & Hr & _).
    exists r, s', evs, dart_files, swift_files, w1.
    repeat (split; [assumption |]).
    destruct Hsearch as [e Hd | e d w1 Hd Hsw | d f w1 Hd Hsw];
      [right | right | left; reflexivity].
    + destruct (find_files_loop_raised _ _ _ _ Hd)
        as (pre & q & post & Hc & Hpre & Hq & He).
      exists e, (world s), "*.dart"%string, pre, q, post.
      repeat split; auto.
    + destruct (find_files_loop_raised _ _ _ _ Hsw)
        as (pre & q & post & Hc & Hpre & Hq & He).
      exists e, w1, "*.swift"%string, pre, q, post.
      repeat split; auto.
Qed.

Lemma io_errors_caught_witness :
  fs_readlines Sample.project Sample.broken_dart
  = inl "UnicodeDecodeError"%string
  /\ clean_dart_file Sample.broken_dart (start Sample.root Sample.project) =
       (Return 0,
        {| self := init Sample.root; world := Sample.project;
           trace := [OpenRead Sample.broken_dart;
                     Print (Error "broken.dart" "UnicodeDecodeError"%string)] |}).
Proof.
  assert (H1 : fs_readlines Sample.project Sample.broken_dart
               = inl "UnicodeDecodeError"%string) by (vm_compute; reflexivity).
  split; [exact H1 |].
  exact (proj1 (proj1 (io_errors_caught (start Sample.root Sample.project)
                         Sample.broken_dart) _ H1)).
Defined.

(** Claim C8, the case it leaves out.  A Dart file in a directory that can
    be listed but not searched: the per-file operation would catch the
    error of reading it, but [find_files] asks [is_file] first, which
    raises, and [run] ends with that exception after its heading, without
    a summary. *)
Lemma io_errors_caught_counterexample :
  rglob Sample.denied_project Sample.root "*.dart" = [Sample.denied_dart]
  /\ fs_is_file Sample.denied_project Sample.denied_dart
     = inl "PermissionError"%string
  /\ fs_readlines Sample.denied_project Sample.denied_dart
     = inl "PermissionError"%string
  /\ fst (clean_dart_file Sample.denied_dart
            (start Sample.root Sample.denied_project)) = Return 0
  /\ find_files "*.dart" (start Sample.root Sample.denied_project)
     = (Raise "PermissionError"%string,
        start Sample.root Sample.denied_project)
  /\ run (start Sample.root Sample.denied_project)
     = (Raise "PermissionError"%string,
        {| self := init Sample.root; world := Sample.denied_project;
           trace := [Print Banner; Print BannerRule;
                     Print (Scanning Sample.root); Print Blank;
                     Print ProcessingDart] |}).
Proof. repeat split; vm_compute; reflexivity. Qed.



(** Claim C10.  When the per-file operation fails (reading raises, or
    lines were removed and writing raises) it returns 0 and leaves every
    counter as it was, the count of processed files included.  When
    nothing raises it returns the number of removed lines and the count of
    processed files of its language goes up by one, the other one staying
    as it was. *)
Theorem failed_file_not_counted {W E} `{FS : FileSystem W E}
        (s : state W E) (p : Path) :
  (((exists e, fs_readlines (world s) p = inl e)
    \/ (exists lines e w',
           fs_readlines (world s) p = inr lines
           /\ 0 < len lines - len (clean_dart_lines lines)
           /\ fs_writelines (world s) p (clean_dart_lines lines)
              = (Some e, w')) ->
    fst (clean_dart_file p s) = Return 0
    /\ dart_files_processed (self (snd (clean_dart_file p s)))
       = dart_files_processed (self s)
    /\ self (snd (clean_dart_file p s)) = self s)
   /\ (forall lines,
          fs_readlines (world s) p = inr lines ->
          (len lines - len (clean_dart_lines lines) <= 0
           \/ exists w', fs_writelines (world s) p (clean_dart_lines lines)
                         = (None, w')) ->
          fst (clean_dart_file p s)
          = Return (len lines - len (clean_dart_lines lines))
          /\ dart_files_processed (self (snd (clean_dart_file p s)))
             = dart_files_processed (self s) + 1
          /\ swift_files_processed (self (snd (clean_dart_file p s)))
             = swift_files_processed (self s)))
  /\ (((exists e, fs_readlines (world s) p = inl e)
       \/ (exists lines e w',
              fs_readlines (world s) p = inr lines
              /\ 0 < len lines - len (clean_swift_lines lines)
              /\ fs_writelines (world s) p (clean_swift_lines lines)
                 = (Some e, w')) ->
       fst (clean_swift_file p s) = Return 0
       /\ swift_files_processed (self (snd (clean_swift_file p s)))
          = swift_files_processed (self s)
       /\ self (snd (clean_swift_file p s)) = self s)
      /\ (forall lines,
             fs_readlines (world s) p = inr lines ->
             (len lines - len (clean_swift_lines lines) <= 0
              \/ exists w', fs_writelines (world s) p (clean_swift_lines lines)
                            = (None, w')) ->
             fst (clean_swift_file p s)
             = Return (len lines - len (clean_swift_lines lines))
             /\ swift_files_processed (self (snd (clean_swift_file p s)))
                = swift_files_processed (self s) + 1
             /\ dart_files_processed (self (snd (clean_swift_file p s)))
                = dart_files_processed (self s))).
Proof.
  rewrite clean_dart_file_shape, clean_swift_file_shape.
  split; split.
  - intros [[e Hread] | (lines & e & w' & Hread & Hpos & Hwrite)].
    + rewrite (clean_with_read_error _ _ _ _ e Hread). auto.
    + rewrite (clean_with_write_error _ _ _ _ lines e w' Hread Hpos Hwrite).
      auto.
  - intros lines Hread [Hle | [w' Hwrite]].
    + rewrite (clean_with_nothing_removed _ _ _ _ lines Hread Hle). auto.
    + destruct (Z.ltb_spec 0 (len lines - len (clean_dart_lines lines)))
        as [Hpos | Hle].
      * rewrite (clean_with_rewritten _ _ _ _ lines w' Hread Hpos Hwrite).
        auto.
      * rewrite (clean_with_nothing_removed _ _ _ _ lines Hread Hle). auto.
  - intros [[e Hread] | (lines & e & w' & Hread & Hpos & Hwrite)].
    + rewrite (clean_with_read_error _ _ _ _ e Hread). auto.
    + rewrite (clean_with_write_error _ _ _ _ lines e w' Hread Hpos Hwrite).
      auto.
  - intros lines Hread [Hle | [w' Hwrite]].
    + rewrite (clean_with_nothing_removed _ _ _ _ lines Hread Hle). auto.
    + destruct (Z.ltb_spec 0 (len lines - len (clean_swift_lines lines)))
        as [Hpos | Hle].
      * rewrite (clean_with_rewritten _ _ _ _ lines w' Hread Hpos Hwrite).
        auto.
      * rewrite (clean_with_nothing_removed _ _ _ _ lines Hread Hle). auto.
Qed.

Lemma failed_file_not_counted_witness :
  (fs_readlines Sample.locked_project Sample.locked_dart
   = inr Sample.locked_lines
   /\ 0 < len Sample.locked_lines - len (clean_dart_lines Sample.locked_lines)
   /\ fs_writelines Sample.locked_project Sample.locked_dart
        (clean_dart_lines Sample.locked_lines)
      = (Some "PermissionError"%string, Sample.locked_project))
  /\ fst (clean_dart_file Sample.locked_dart
            (start Sample.root Sample.locked_project)) = Return 0
  /\ dart_files_processed
       (self (snd (clean_dart_file Sample.locked_dart
                     (start Sample.root Sample.locked_project)))) = 0.
Proof.
  assert (H1 : fs_readlines Sample.locked_project Sample.locked_dart
               = inr Sample.locked_lines) by (vm_compute; reflexivity).
  assert (H2 : 0 < len Sample.locked_lines
                   - len (clean_dart_lines Sample.locked_lines))
    by (vm_compute; reflexivity).
  assert (H3 : fs_writelines Sample.locked_project Sample.locked_dart
                 (clean_dart_lines Sample.locked_lines)
               = (Some "PermissionError"%string, Sample.locked_project))
    by (vm_compute; reflexivity).
  split; [split; [exact H1 | split; [exact H2 | exact H3]] |].
  pose proof (proj1 (proj1 (failed_file_not_counted
                              (start Sample.root Sample.locked_project)
                              Sample.locked_dart))
                (or_intror
                   (ex_intro _ Sample.locked_lines
                      (ex_intro _ "PermissionError"%string
                         (ex_intro _ Sample.locked_project
                            (conj H1 (conj H2 H3))))))) as H.
  split; [exact (proj1 H) | exact (proj1 (proj2 H))].
Defined.

(** ** Further properties of the scans *)

Section ScanMore.
Variables (opens removes : line -> bool).
Variables (skip scan : list line -> list line).

Hypothesis skip_suffix : forall ls, exists pre, ls = pre ++ skip ls.
Hypothesis scan_nil : scan [] = [].
Hypothesis scan_cons : forall l rest,
    scan (l :: rest) =
      if opens l then scan (skip rest)
      else if removes l then scan rest else l :: scan rest.

Lemma scan_length (ls : list line) : (length (scan ls) <= length ls)%nat.
Proof.
  apply sublist_length.
  exact (scan_sublist opens removes skip scan skip_suffix scan_nil scan_cons ls).
Qed.

(** When no line is lost, no test fired on any line. *)
Lemma scan_same_length (ls : list line) :
  length (scan ls) = length ls ->
  forallb (fun l => negb (opens l) && negb (removes l)) ls = true.
Proof.
  induction ls as [| l rest Ho IH | l rest Ho IH]
    using (scan_ind opens skip skip_suffix).
  - reflexivity.
  - rewrite scan_cons, Ho. simpl. intros Hlen.
    pose proof (scan_length (skip rest)).
    pose proof (skip_length skip skip_suffix rest). lia.
  - rewrite scan_cons, Ho. destruct (removes l) eqn:Hr; simpl.
    + intros Hlen. pose proof (scan_length rest). lia.
    + intros Hlen. rewrite Ho, Hr. simpl. apply IH. lia.
Qed.

(** When a test fires on every line, nothing is kept. *)
Lemma scan_all_fire (ls : list line) :
  forallb (fun l => negb (negb (opens l) && negb (removes l))) ls = true ->
  scan ls = [].
Proof.
  induction ls as [| l rest Ho IH | l rest Ho IH]
    using (scan_ind opens skip skip_suffix).
  - intros _. apply scan_nil.
  - intros Hall. rewrite scan_cons, Ho. apply IH.
    destruct (skip_suffix rest) as [pre Hpre].
    simpl in Hall. apply andb_true_iff in Hall as [_ Hall].
    rewrite Hpre, forallb_app in Hall.
    apply andb_true_iff in Hall as [_ Hall]. exact Hall.
  - simpl. intros [Hl Hall]%andb_true_iff.
    rewrite scan_cons, Ho. rewrite Ho in Hl. simpl in Hl.
    apply negb_true_iff, negb_false_iff in Hl. rewrite Hl. apply IH, Hall.
Qed.

(** Up to the first opener the scan is the per-line test. *)
Lemma scan_no_opener (a b : list line) :
  forallb (fun l => negb (opens l)) a = true ->
  scan (a ++ b) = List.filter (fun l => negb (removes l)) a ++ scan b.
Proof.
  induction a as [|l a IH]; simpl; [reflexivity|].
  intros [Hl Ha]%andb_true_iff. apply negb_true_iff in Hl.
  rewrite scan_cons, Hl, (IH Ha). destruct (removes l); reflexivity.
Qed.

End ScanMore.

Lemma clean_dart_lines_length (ls : list line) :
  (length (clean_dart_lines ls) <= length ls)%nat.
Proof. apply sublist_length, clean_dart_lines_sublist. Qed.

Lemma clean_swift_lines_length (ls : list line) :
  (length (clean_swift_lines ls) <= length ls)%nat.
Proof. apply sublist_length, clean_swift_lines_sublist. Qed.

(** Property X1.  No scan ever returns more lines than it was given, and it
    returns as many (so that the file is left alone) exactly when no line
    of the file is a block opener or matches a per-line pattern. *)
Theorem rewritten_iff_some_line_fires (ls : list line) :
  (0 <= len ls - len (clean_dart_lines ls)
   /\ (len ls - len (clean_dart_lines ls) = 0
       <-> forallb dart_plain ls = true)
   /\ ((0 <? len ls - len (clean_dart_lines ls)) = true
       <-> existsb (fun l => negb (dart_plain l)) ls = true))
  /\ (0 <= len ls - len (clean_swift_lines ls)
      /\ (len ls - len (clean_swift_lines ls) = 0
          <-> forallb swift_plain ls = true)
      /\ ((0 <? len ls - len (clean_swift_lines ls)) = true
          <-> existsb (fun l => negb (swift_plain l)) ls = true)).
Proof.
  assert (Hneg : forall (f : line -> bool) (l : list line),
             existsb (fun x => negb (f x)) l = negb (forallb f l)).
  { intros f l. induction l as [|x l IH]; simpl; [reflexivity|].
    rewrite IH, negb_andb. reflexivity. }
  assert (Hd : len ls - len (clean_dart_lines ls) = 0
               <-> forallb dart_plain ls = true).
  { split.
    - intros Hz.
      apply scan_same_length
        with (opens := re_match kdebug_block_re)
             (removes := should_remove dart_patterns)
             (skip := skip_brace_block 1) (scan := clean_dart_lines);
        [apply skip_brace_block_suffix | reflexivity | reflexivity |].
      unfold len in Hz. lia.
    - intros Hp. rewrite (clean_dart_lines_plain ls Hp). lia. }
  assert (Hs : len ls - len (clean_swift_lines ls) = 0
               <-> forallb swift_plain ls = true).
  { split.
    - intros Hz.
      apply scan_same_length
        with (opens := re_match if_debug_re)
             (removes := should_remove swift_patterns)
             (skip := skip_to_endif) (scan := clean_swift_lines);
        [apply skip_to_endif_suffix | reflexivity | reflexivity |].
      unfold len in Hz. lia.
    - intros Hp. rewrite (clean_swift_lines_plain ls Hp). lia. }
  pose proof (clean_dart_lines_length ls) as Ld.
  pose proof (clean_swift_lines_length ls) as Ls.
  unfold len in *.
  split; (split; [lia | split; [assumption |]]).
  - rewrite Hneg, negb_true_iff, Z.ltb_lt.
    destruct (forallb dart_plain ls) eqn:Hp.
    + split; [intros; apply proj2 in Hd; specialize (Hd eq_refl); lia
             | discriminate].
    + split; [reflexivity |]. intros _.
      destruct (Z.eq_dec
                  (Z.of_nat (length ls)
                   - Z.of_nat (length (clean_dart_lines ls))) 0) as [Hz|Hz];
        [apply Hd in Hz; discriminate | lia].
  - rewrite Hneg, negb_true_iff, Z.ltb_lt.
    destruct (forallb swift_plain ls) eqn:Hp.
    + split; [intros; apply proj2 in Hs; specialize (Hs eq_refl); lia
             | discriminate].
    + split; [reflexivity |]. intros _.
      destruct (Z.eq_dec
                  (Z.of_nat (length ls)
                   - Z.of_nat (length (clean_swift_lines ls))) 0) as [Hz|Hz];
        [apply Hs in Hz; discriminate | lia].
Qed.

(** Property X2.  What a scan returns holds no block opener and no line
    matching a per-line pattern; and when every line of a file is a block
    opener or matches a per-line pattern, the scan returns nothing: the
    file is rewritten empty and all its lines count as removed. *)
Theorem only_plain_lines_survive (ls : list line) :
  forallb dart_plain (clean_dart_lines ls) = true
  /\ forallb swift_plain (clean_swift_lines ls) = true
  /\ (forallb (fun l => negb (dart_plain l)) ls = true ->
      clean_dart_lines ls = []
      /\ len ls - len (clean_dart_lines ls) = len ls)
  /\ (forallb (fun l => negb (swift_plain l)) ls = true ->
      clean_swift_lines ls = []
      /\ len ls - len (clean_swift_lines ls) = len ls).
Proof.
  split; [| split; [| split]].
  - apply scan_survivors
      with (opens := re_match kdebug_block_re)
           (removes := should_remove dart_patterns)
           (skip := skip_brace_block 1) (scan := clean_dart_lines);
      [apply skip_brace_block_suffix | reflexivity | reflexivity].
  - apply scan_survivors
      with (opens := re_match if_debug_re)
           (removes := should_remove swift_patterns)
           (skip := skip_to_endif) (scan := clean_swift_lines);
      [apply skip_to_endif_suffix | reflexivity | reflexivity].
  - intros Hall.
    assert (Hnil : clean_dart_lines ls = []).
    { apply scan_all_fire
        with (opens := re_match kdebug_block_re)
             (removes := should_remove dart_patterns)
             (skip := skip_brace_block 1) (scan := clean_dart_lines);
        [apply skip_brace_block_suffix | reflexivity | reflexivity
        | exact Hall]. }
    rewrite Hnil. split; [reflexivity | unfold len; simpl; lia].
  - intros Hall.
    assert (Hnil : clean_swift_lines ls = []).
    { apply scan_all_fire
        with (opens := re_match if_debug_re)
             (removes := should_remove swift_patterns)
             (skip := skip_to_endif) (scan := clean_swift_lines);
        [apply skip_to_endif_suffix | reflexivity | reflexivity
        | exact Hall]. }
    rewrite Hnil. split; [reflexivity | unfold len; simpl; lia].
Qed.

Lemma only_plain_lines_survive_witness :
  forallb (fun l => negb (dart_plain l))
    [ln "print(x);"; ln "  debugPrint(y);"] = true
  /\ clean_dart_lines [ln "print(x);"; ln "  debugPrint(y);"] = []
  /\ forallb (fun l => negb (swift_plain l)) [ln "NSLog(x)"] = true
  /\ clean_swift_lines [ln "NSLog(x)"] = [].
Proof.
  assert (H1 : forallb (fun l => negb (dart_plain l))
                 [ln "print(x);"; ln "  debugPrint(y);"] = true)
    by (vm_compute; reflexivity).
  assert (H2 : forallb (fun l => negb (swift_plain l)) [ln "NSLog(x)"] = true)
    by (vm_compute; reflexivity).
  split; [exact H1 | split; [| split; [exact H2 |]]].
  - exact (proj1 (proj1 (proj2 (proj2
             (only_plain_lines_survive
                [ln "print(x);"; ln "  debugPrint(y);"]))) H1)).
  - exact (proj1 (proj2 (proj2 (proj2
             (only_plain_lines_survive [ln "NSLog(x)"]))) H2)).
Defined.

(** Property X3.  In front of the first block opener a scan is the
    per-line test and nothing else: the lines in front of it are filtered
    one by one, whatever follows, and a file without block opener comes out
    as the list of its lines that match no per-line pattern. *)
Theorem scan_is_line_filter_before_first_opener (a b : list line) :
  (forallb (fun l => negb (re_match kdebug_block_re l)) a = true ->
   clean_dart_lines (a ++ b) = List.filter keep_dart a ++ clean_dart_lines b
   /\ clean_dart_lines a = List.filter keep_dart a)
  /\ (forallb (fun l => negb (re_match if_debug_re l)) a = true ->
      clean_swift_lines (a ++ b)
      = List.filter keep_swift a ++ clean_swift_lines b
      /\ clean_swift_lines a = List.filter keep_swift a).
Proof.
  split; intros Ha.
  - assert (H : forall c, clean_dart_lines (a ++ c)
                          = List.filter keep_dart a ++ clean_dart_lines c).
    { intros c.
      apply scan_no_opener with (opens := re_match kdebug_block_re)
                                (skip := skip_brace_block 1);
        [reflexivity | exact Ha]. }
    split; [apply H |].
    rewrite <- (app_nil_r a) at 1. rewrite (H []). apply app_nil_r.
  - assert (H : forall c, clean_swift_lines (a ++ c)
                          = List.filter keep_swift a ++ clean_swift_lines c).
    { intros c.
      apply scan_no_opener with (opens := re_match if_debug_re)
                                (skip := skip_to_endif);
        [reflexivity | exact Ha]. }
    split; [apply H |].
    rewrite <- (app_nil_r a) at 1. rewrite (H []). apply app_nil_r.
Qed.

Lemma scan_is_line_filter_before_first_opener_witness :
  forallb (fun l => negb (re_match kdebug_block_re l))
    [ln "a();"; ln "print(x);"] = true
  /\ clean_dart_lines ([ln "a();"; ln "print(x);"] ++ Sample.spec_lines)
     = List.filter keep_dart [ln "a();"; ln "print(x);"]
       ++ clean_dart_lines Sample.spec_lines.
Proof.
  assert (H1 : forallb (fun l => negb (re_match kdebug_block_re l))
                 [ln "a();"; ln "print(x);"] = true)
    by (vm_compute; reflexivity).
  split; [exact H1 |].
  exact (proj1 (proj1 (scan_is_line_filter_before_first_opener
                         [ln "a();"; ln "print(x);"] Sample.spec_lines) H1)).
Defined.

(** Property X4.  The inner loop of [clean_dart_file] runs while the
    counter is positive, so a line that takes the counter below zero ends
    the block just as one that takes it to zero: when the scan meets an
    opener, a body that keeps the counter positive and then a line that
    brings it to zero or below, it resumes right behind that line. *)
Theorem dart_block_ends_at_zero_or_below
        (opener : line) (body : list line) (closer : line)
        (post : list line) :
  re_match kdebug_block_re opener = true ->
  unclosed 1 body = true ->
  counter_after 1 (body ++ [closer]) <= 0 ->
  skip_brace_block 1 (body ++ closer :: post) = post
  /\ clean_dart_lines (opener :: body ++ closer :: post)
     = clean_dart_lines post.
Proof.
  intros Hopener Hbody Hle.
  assert (Hskip : skip_brace_block 1 (body ++ closer :: post) = post).
  { destruct (skip_brace_block_unclosed body (closer :: post) 1 Hbody)
      as [-> Hpos].
    rewrite counter_after_app in Hle. simpl in Hle.
    rewrite skip_brace_block_cons.
    destruct (Z.ltb_spec 0 (counter_after 1 body)); [|lia].
    apply skip_brace_block_closed. exact Hle. }
  split; [exact Hskip |].
  rewrite clean_dart_lines_cons, Hopener, Hskip. reflexivity.
Qed.

Lemma dart_block_ends_at_zero_or_below_witness :
  re_match kdebug_block_re (ln "if (kDebugMode) {") = true
  /\ unclosed 1 [ln "  trace();"] = true
  /\ counter_after 1 ([ln "  trace();"] ++ [ln "}}"]) <= 0
  /\ clean_dart_lines
       (ln "if (kDebugMode) {" :: [ln "  trace();"] ++ ln "}}" :: [ln "work();"])
     = clean_dart_lines [ln "work();"].
Proof.
  assert (H1 : re_match kdebug_block_re (ln "if (kDebugMode) {") = true)
    by (vm_compute; reflexivity).
  assert (H2 : unclosed 1 [ln "  trace();"] = true)
    by (vm_compute; reflexivity).
  assert (H3 : counter_after 1 ([ln "  trace();"] ++ [ln "}}"]) <= 0)
    by (vm_compute; discriminate).
  split; [exact H1 | split; [exact H2 | split; [exact H3 |]]].
  exact (proj2 (dart_block_ends_at_zero_or_below _ _ _ _ H1 H2 H3)).
Defined.

(** ** Further facts about the patterns *)

Lemma leading_literal_inv (re : regex) (a : char) :
  leading_literal re = Some a ->
  exists r, re = Bol :: Star Space :: One (Lit a) :: r.
Proof.
  destruct re as [|[| |k|k|k] re]; try discriminate.
  destruct re as [|[| |k|k|k] re]; try discriminate.
  destruct k; try discriminate.
  destruct re as [|[| |k|k|k] re]; try discriminate.
  destruct k as [|d|d]; try discriminate.
  simpl. intros [= ->]. eauto.
Qed.

(** A pattern [^\s*a...], with [a] not a space, does not match a line of
    spaces only. *)
Lemma leading_literal_blank (re : regex) (a : char) (w : str) :
  leading_literal re = Some a -> isspace a = false ->
  forallb isspace w = true -> re_match re w = false.
Proof.
  intros Hre Ha Hw. destruct (leading_literal_inv _ _ Hre) as [r ->].
  unfold re_match. simpl.
  assert (H : forall b,
             star isspace (matches_here (One (Lit a) :: r)) b w = false);
    [| apply H].
  induction w as [|x w IH]; intros b; simpl; [reflexivity|].
  apply andb_true_iff in Hw as [Hx Hw].
  rewrite Hx, (IH Hw). simpl.
  destruct (N.eqb_spec x a) as [-> | _]; [congruence | reflexivity].
Qed.

(** It matches a line only when the first character that is not a space
    is [a]. *)
Lemma leading_literal_first (re : regex) (a c : char) (w rest : str) :
  leading_literal re = Some a -> isspace a = false ->
  forallb isspace w = true -> isspace c = false ->
  re_match re (w ++ c :: rest) = true -> c = a.
Proof.
  intros Hre Ha Hw Hc. destruct (leading_literal_inv _ _ Hre) as [r ->].
  unfold re_match. simpl.
  assert (H : forall b,
             star isspace (matches_here (One (Lit a) :: r)) b (w ++ c :: rest)
             = true -> c = a); [| apply H].
  induction w as [|x w IH]; intros b; simpl.
  - rewrite Hc, orb_false_r.
    intros [Hx _]%andb_true_iff. apply N.eqb_eq, Hx.
  - apply andb_true_iff in Hw as [Hx Hw]. rewrite Hx. simpl.
    intros [[Hxa _]%andb_true_iff | Hstar]%orb_true_iff.
    + apply N.eqb_eq in Hxa. congruence.
    + exact (IH Hw _ Hstar).
Qed.

(** A line it matches is a run of spaces followed by [a]. *)
Lemma leading_literal_shape (re : regex) (a : char) (l : line) :
  leading_literal re = Some a -> re_match re l = true ->
  exists w rest, l = w ++ a :: rest /\ forallb isspace w = true.
Proof.
  intros Hre Hm. destruct (leading_literal_inv _ _ Hre) as [r ->].
  unfold re_match in Hm. simpl in Hm.
  destruct (star_inv _ _ _ _ Hm) as (pre & rest & b' & -> & Hpre & Hk).
  destruct rest as [|x rest]; [discriminate|].
  apply andb_true_iff in Hk as [Hx _]. apply N.eqb_eq in Hx as ->.
  exists pre, rest. auto.
Qed.

Lemma excludes_blank (patterns : list regex) (c : char) (w : str) :
  excludes patterns c = true -> forallb isspace w = true ->
  should_remove patterns w = false.
Proof.
  unfold excludes, should_remove. intros Hex Hw.
  induction patterns as [|re ps IH]; simpl; [reflexivity|].
  simpl in Hex. apply andb_true_iff in Hex as [Hre Hps].
  destruct (leading_literal re) as [a|] eqn:Ha; [|discriminate].
  apply andb_true_iff in Hre as [Hsp _]. apply negb_true_iff in Hsp.
  rewrite (leading_literal_blank re a w Ha Hsp Hw), (IH Hps). reflexivity.
Qed.

Lemma excludes_first (patterns : list regex) (c : char) (w rest : str) :
  excludes patterns c = true ->
  forallb isspace w = true -> isspace c = false ->
  should_remove patterns (w ++ c :: rest) = false.
Proof.
  unfold excludes, should_remove. intros Hex Hw Hc.
  induction patterns as [|re ps IH]; simpl; [reflexivity|].
  simpl in Hex. apply andb_true_iff in Hex as [Hre Hps].
  destruct (leading_literal re) as [a|] eqn:Ha; [|discriminate].
  apply andb_true_iff in Hre as [Hsp Hne].
  apply negb_true_iff in Hsp, Hne. rewrite (IH Hps), orb_false_r.
  destruct (re_match re (w ++ c :: rest)) eqn:Hm; [|reflexivity].
  pose proof (leading_literal_first re a c w rest Ha Hsp Hw Hc Hm) as ->.
  rewrite N.eqb_refl in Hne. discriminate.
Qed.

(** Property X5.  Blank lines are never removed by a test of their own: a
    line made of spaces only (the empty line, a lone line feed, tabs) is no
    block opener, matches no per-line pattern and is no [#endif] line, in
    both languages. *)
Theorem blank_lines_are_plain (l : line) :
  forallb isspace l = true ->
  dart_plain l = true /\ swift_plain l = true /\ is_endif l = false.
Proof.
  intros Hl. unfold dart_plain, swift_plain, is_endif.
  rewrite (excludes_blank dart_patterns 0%N l eq_refl Hl).
  rewrite (excludes_blank swift_patterns 0%N l eq_refl Hl).
  rewrite (leading_literal_blank kdebug_block_re _ l eq_refl eq_refl Hl).
  rewrite (leading_literal_blank if_debug_re _ l eq_refl eq_refl Hl).
  rewrite (leading_literal_blank endif_re _ l eq_refl eq_refl Hl).
  auto.
Qed.

Lemma blank_lines_are_plain_witness :
  forallb isspace (ln "  ") = true
  /\ dart_plain (ln "  ") = true /\ swift_plain (ln "  ") = true.
Proof.
  assert (H1 : forallb isspace (ln "  ") = true) by (vm_compute; reflexivity).
  split; [exact H1 |].
  pose proof (blank_lines_are_plain (ln "  ") H1) as H.
  split; [exact (proj1 H) | exact (proj1 (proj2 H))].
Defined.

(** Property X6.  Whether a test can fire on a line is decided by its first
    character that is not a space: a Dart line is left alone unless that
    character is [p], [d] or [i], and a Swift line unless it is [p], [N],
    [o] or [#].  So a debug statement behind a comment mark, or behind any
    other text on its line, is kept. *)
Theorem first_character_decides (w : str) (c : char) (rest : str) :
  forallb isspace w = true ->
  isspace c = false ->
  (c <> ord "p" -> c <> ord "d" -> c <> ord "i" ->
   dart_plain (w ++ c :: rest) = true)
  /\ (c <> ord "p" -> c <> ord "N" -> c <> ord "o" -> c <> ord "#" ->
      swift_plain (w ++ c :: rest) = true).
Proof.
  intros Hw Hc. split.
  - intros Hp Hd Hi.
    apply N.eqb_neq in Hp, Hd, Hi. rewrite N.eqb_sym in Hp, Hd, Hi.
    unfold dart_plain.
    rewrite (excludes_first dart_patterns c w rest); try assumption.
    + destruct (re_match kdebug_block_re (w ++ c :: rest)) eqn:Hm;
        [|reflexivity].
      pose proof (leading_literal_first kdebug_block_re _ c w rest
                    eq_refl eq_refl Hw Hc Hm) as ->.
      discriminate.
    + unfold excludes. simpl. vm_compute in Hp, Hd, Hi |- *.
      rewrite Hp, Hd, Hi. reflexivity.
  - intros Hp HN Ho Hh.
    apply N.eqb_neq in Hp, HN, Ho, Hh. rewrite N.eqb_sym in Hp, HN, Ho, Hh.
    unfold swift_plain.
    rewrite (excludes_first swift_patterns c w rest); try assumption.
    + destruct (re_match if_debug_re (w ++ c :: rest)) eqn:Hm;
        [|reflexivity].
      pose proof (leading_literal_first if_debug_re _ c w rest
                    eq_refl eq_refl Hw Hc Hm) as ->.
      discriminate.
    + unfold excludes. simpl. vm_compute in Hp, HN, Ho |- *.
      rewrite Hp, HN, Ho. reflexivity.
Qed.

Lemma first_character_decides_witness :
  forallb isspace (py "  ") = true
  /\ isspace (ord "/") = false
  /\ dart_plain (py "  " ++ ord "/" :: ln "/ print(x);") = true
  /\ swift_plain (py "  " ++ ord "/" :: ln "/ print(x)") = true.
Proof.
  assert (H1 : forallb isspace (py "  ") = true) by (vm_compute; reflexivity).
  assert (H2 : isspace (ord "/") = false) by (vm_compute; reflexivity).
  split; [exact H1 | split; [exact H2 | split]].
  - apply (proj1 (first_character_decides (py "  ") (ord "/")
                    (ln "/ print(x);") H1 H2)); discriminate.
  - apply (proj2 (first_character_decides (py "  ") (ord "/")
                    (ln "/ print(x)") H1 H2)); discriminate.
Defined.

(** An [#endif] line met by the normal scan is kept. *)
Lemma endif_is_plain (l : line) : is_endif l = true -> swift_plain l = true.
Proof.
  intros He. unfold swift_plain.
  destruct (leading_literal_shape endif_re _ l eq_refl He)
    as (w & rest & -> & Hw).
  rewrite (excludes_first swift_patterns (ord "#") w rest eq_refl Hw eq_refl).
  destruct (re_match if_debug_re (w ++ ord "#" :: rest)) eqn:Hi;
    [| reflexivity].
  rewrite (if_debug_not_endif _ Hi) in He. discriminate.
Qed.

(** Property X7.  Swift conditionals are not counted: an [#if DEBUG] block
    ends at the first [#endif] line, also when that line closes a
    conditional opened inside the block.  What follows is scanned
    normally, and an [#endif] line met there is kept, so the [#endif] of
    the outer block stays in the file. *)
Theorem swift_block_ends_at_first_endif
        (start_line : line) (mid : list line) (inner_end : line)
        (tail : list line) (outer_end : line) :
  re_match if_debug_re start_line = true ->
  Forall (fun l => re_match endif_re l = false) mid ->
  re_match endif_re inner_end = true ->
  forallb swift_plain tail = true ->
  re_match endif_re outer_end = true ->
  swift_plain outer_end = true
  /\ clean_swift_lines
       (start_line :: mid ++ inner_end :: tail ++ [outer_end])
     = tail ++ [outer_end].
Proof.
  intros Hstart Hmid Hinner Htail Houter.
  pose proof (endif_is_plain outer_end Houter) as Hplain.
  split; [exact Hplain |].
  apply Forall_not_endif in Hmid.
  pose proof (swift_block_split start_line mid inner_end
                (tail ++ [outer_end]) Hstart Hmid Hinner []) as Hsplit.
  change (clean_swift_lines
            (start_line :: mid ++ inner_end :: tail ++ [outer_end])
          = clean_swift_lines (tail ++ [outer_end])) in Hsplit.
  rewrite Hsplit. apply clean_swift_lines_plain.
  rewrite forallb_app, Htail. simpl. rewrite Hplain. reflexivity.
Qed.

Lemma swift_block_ends_at_first_endif_witness :
  re_match if_debug_re (ln "#if DEBUG") = true
  /\ Forall (fun l => re_match endif_re l = false)
       [ln "#if os(iOS)"; ln "let a = 1"]
  /\ re_match endif_re (ln "#endif") = true
  /\ forallb swift_plain [ln "let b = 2"] = true
  /\ clean_swift_lines
       (ln "#if DEBUG"
        :: [ln "#if os(iOS)"; ln "let a = 1"]
           ++ ln "#endif" :: [ln "let b = 2"] ++ [ln "#endif"])
     = [ln "let b = 2"] ++ [ln "#endif"].
Proof.
  assert (H1 : re_match if_debug_re (ln "#if DEBUG") = true)
    by (vm_compute; reflexivity).
  assert (H2 : Forall (fun l => re_match endif_re l = false)
                 [ln "#if os(iOS)"; ln "let a = 1"])
    by (repeat constructor).
  assert (H3 : re_match endif_re (ln "#endif") = true)
    by (vm_compute; reflexivity).
  assert (H4 : forallb swift_plain [ln "let b = 2"] = true)
    by (vm_compute; reflexivity).
  split; [exact H1 | split; [exact H2 | split; [exact H3
    | split; [exact H4 |]]]].
  exact (proj2 (swift_block_ends_at_first_endif _ _ _ _ _ H1 H2 H3 H4 H3)).
Defined.

Lemma class_occurs_one (k : cclass) (c x : char) (n : Z) :
  class_occurs k c = Some n -> in_class k x = true ->
  (if (x =? c)%N then 1 else 0) = n.
Proof.
  destruct k as [|d|d]; simpl; intros Hn Hx.
  - destruct (isspace c) eqn:Hc; [discriminate|]. injection Hn as <-.
    destruct (N.eqb_spec x c); [congruence | reflexivity].
  - apply N.eqb_eq in Hx as ->. destruct (d =? c)%N; congruence.
  - destruct (N.eqb_spec d c) as [-> | _]; [|discriminate].
    injection Hn as <-. apply negb_true_iff in Hx. rewrite Hx. reflexivity.
Qed.

Lemma class_occurs_run (k : cclass) (c : char) (pre : str) :
  class_occurs k c = Some 0 -> forallb (in_class k) pre = true ->
  count pre c = 0.
Proof.
  intros Hk. induction pre as [|x pre IH]; simpl; [reflexivity|].
  intros [Hx Hpre]%andb_true_iff.
  rewrite (class_occurs_one _ _ _ _ Hk Hx), IH by assumption. reflexivity.
Qed.

(** A match of [re] consumes a prefix holding exactly [occurrences re c]
    occurrences of [c]; when [re] has a [$], what follows the prefix is at
    the end of the line. *)
Lemma matches_here_occurrences (c : char) :
  forall re b s n,
    matches_here re b s = true -> occurrences re c = Some n ->
    exists s1 s2, s = s1 ++ s2 /\ count s1 c = n
                  /\ (existsb is_eol re = true -> at_eol s2 = true).
Proof.
  induction re as [|a re IH]; intros b s n Hm Hn.
  - injection Hn as <-. exists [], s. simpl. repeat split; discriminate.
  - destruct a as [| |k|k|k]; simpl in Hm, Hn.
    + apply andb_true_iff in Hm as [_ Hm].
      destruct (IH _ _ _ Hm Hn) as (s1 & s2 & -> & Hc & He).
      exists s1, s2. auto.
    + apply andb_true_iff in Hm as [Hs Hm].
      destruct (IH _ _ _ Hm Hn) as (s1 & s2 & -> & Hc & He).
      exists s1, s2. repeat split; [assumption|].
      intros _. exact (at_eol_suffix _ _ Hs).
    + destruct s as [|x s]; [discriminate|].
      apply andb_true_iff in Hm as [Hx Hm].
      destruct (class_occurs k c) as [n1|] eqn:Hk; [|discriminate].
      destruct (occurrences re c) as [m|] eqn:Hre; [|discriminate].
      injection Hn as <-.
      destruct (IH _ _ _ Hm eq_refl) as (s1 & s2 & -> & Hc & He).
      exists (x :: s1), s2. simpl.
      rewrite (class_occurs_one _ _ _ _ Hk Hx), Hc. auto.
    + destruct (class_occurs k c) as [[| |]|] eqn:Hk; try discriminate.
      destruct (occurrences re c) as [m|] eqn:Hre; [|discriminate].
      injection Hn as <-.
      destruct (star_inv _ _ _ _ Hm) as (pre & rest & b' & -> & Hpre & Hr).
      destruct (IH _ _ _ Hr eq_refl) as (s1 & s2 & -> & Hc & He).
      exists (pre ++ s1), s2. rewrite count_app, Hc, <- app_assoc.
      rewrite (class_occurs_run _ _ _ Hk Hpre). auto.
    + destruct s as [|x s]; [discriminate|].
      apply andb_true_iff in Hm as [Hx Hm].
      destruct (class_occurs k c) as [[| |]|] eqn:Hk; try discriminate.
      destruct (occurrences re c) as [m|] eqn:Hre; [|discriminate].
      injection Hn as <-.
      destruct (star_inv _ _ _ _ Hm) as (pre & rest & b' & -> & Hpre & Hr).
      destruct (IH _ _ _ Hr eq_refl) as (s1 & s2 & -> & Hc & He).
      exists (x :: pre ++ s1), s2. simpl.
      rewrite count_app, Hc, <- app_assoc.
      rewrite (class_occurs_one _ _ _ _ Hk Hx).
      rewrite (class_occurs_run _ _ _ Hk Hpre). auto.
Qed.

Lemma re_match_occurrences (re : regex) (l : line) (c : char) (n : Z) :
  c <> LF -> existsb is_eol re = true -> occurrences re c = Some n ->
  re_match re l = true -> count l c = n.
Proof.
  intros Hc He Hn Hm.
  destruct (matches_here_occurrences c _ _ _ _ Hm Hn)
    as (s1 & s2 & -> & H1 & H2).
  rewrite count_app, H1, (at_eol_count _ _ Hc (H2 He)). lia.
Qed.

(** The first character of a line that is not a space is the same however
    the line is cut. *)
Lemma first_nonspace_unique (w w' : str) (c c' : char) (rest rest' : str) :
  w ++ c :: rest = w' ++ c' :: rest' ->
  forallb isspace w = true -> isspace c = false ->
  forallb isspace w' = true -> isspace c' = false ->
  c = c'.
Proof.
  revert w'. induction w as [|x w IH]; intros w' Heq Hw Hc Hw' Hc'.
  - destruct w' as [|y w']; simpl in Heq; injection Heq as -> _;
      [reflexivity |].
    simpl in Hw'. apply andb_true_iff in Hw' as [Hy _]. congruence.
  - simpl in Hw. apply andb_true_iff in Hw as [Hx Hw].
    destruct w' as [|y w']; simpl in Heq; injection Heq as -> Heq.
    + congruence.
    + simpl in Hw'. apply andb_true_iff in Hw' as [_ Hw'].
      exact (IH w' Heq Hw Hc Hw' Hc').
Qed.

(** Property X8.  The argument list of a removed call holds no [)].  A
    line on which a Swift pattern or one of the first three Dart patterns
    fires holds exactly one [)], and a line on which the fourth Dart
    pattern fires exactly two; so a removed Dart line with two [)] has the
    form [if (kDebugMode) print(...);], beginning with [i] behind its
    spaces.  Hence a call whose arguments hold a [)], in a nested call or
    in a string, is kept although its line begins like a debug statement:
    a Dart line that begins with another character than [i] and has not
    exactly one [)], a Dart line that begins with [i] and has not exactly
    two, and a Swift line that has not exactly one. *)
Theorem removed_line_has_one_closing_paren (l : line) :
  Forall2 (fun re n => re_match re l = true -> count l RPAREN = n)
          dart_patterns [1; 1; 1; 2]
  /\ Forall (fun re => re_match re l = true -> count l RPAREN = 1)
            swift_patterns
  /\ (should_remove swift_patterns l = true -> count l RPAREN = 1)
  /\ (should_remove dart_patterns l = true ->
      (count l RPAREN = 1
       /\ exists w c rest,
            l = w ++ c :: rest /\ forallb isspace w = true
            /\ (c = ord "p" \/ c = ord "d"))
      \/ (count l RPAREN = 2
          /\ exists w rest,
               l = w ++ ord "i" :: rest /\ forallb isspace w = true))
  /\ (forall w c rest,
         l = w ++ c :: rest -> forallb isspace w = true ->
         isspace c = false -> c <> ord "i" ->
         count l RPAREN <> 1 -> should_remove dart_patterns l = false)
  /\ (forall w rest,
         l = w ++ ord "i" :: rest -> forallb isspace w = true ->
         count l RPAREN <> 2 -> should_remove dart_patterns l = false)
  /\ (count l RPAREN <> 1 -> should_remove swift_patterns l = false).
Proof.
  assert (Hone : forall re n,
             existsb is_eol re = true -> occurrences re RPAREN = Some n ->
             re_match re l = true -> count l RPAREN = n).
  { intros re n He Hn Hm.
    apply (re_match_occurrences re l RPAREN n); try assumption.
    discriminate. }
  assert (Hswift : should_remove swift_patterns l = true ->
                   count l RPAREN = 1).
  { unfold should_remove. intros (re & Hin & H)%existsb_exists.
    destruct Hin as [<- | [<- | [<- | []]]];
      refine (Hone _ 1 _ _ H); reflexivity. }
  assert (Hdart : should_remove dart_patterns l = true ->
                  (count l RPAREN = 1
                   /\ exists w c rest,
                        l = w ++ c :: rest /\ forallb isspace w = true
                        /\ (c = ord "p" \/ c = ord "d"))
                  \/ (count l RPAREN = 2
                      /\ exists w rest,
                           l = w ++ ord "i" :: rest
                           /\ forallb isspace w = true)).
  { assert (Hshape : forall re a,
               re_match re l = true -> leading_literal re = Some a ->
               exists w rest, l = w ++ a :: rest /\ forallb isspace w = true).
    { intros re a Hm Ha. exact (leading_literal_shape re a l Ha Hm). }
    unfold should_remove. intros (re & Hin & H)%existsb_exists.
    destruct Hin as [<- | [<- | [<- | [<- | []]]]].
    + left. split; [refine (Hone _ 1 _ _ H); reflexivity |].
      destruct (Hshape _ (ord "p") H eq_refl) as (w & rest & Hl & Hw).
      exists w, (ord "p"), rest. auto.
    + left. split; [refine (Hone _ 1 _ _ H); reflexivity |].
      destruct (Hshape _ (ord "d") H eq_refl) as (w & rest & Hl & Hw).
      exists w, (ord "d"), rest. auto.
    + left. split; [refine (Hone _ 1 _ _ H); reflexivity |].
      destruct (Hshape _ (ord "d") H eq_refl) as (w & rest & Hl & Hw).
      exists w, (ord "d"), rest. auto.
    + right. split; [refine (Hone _ 2 _ _ H); reflexivity |].
      exact (Hshape _ (ord "i") H eq_refl). }
  split; [| split; [| split; [exact Hswift | split; [exact Hdart
    | split; [| split]]]]].
  - repeat constructor; intros H; refine (Hone _ _ _ _ H); reflexivity.
  - repeat constructor; intros H; refine (Hone _ 1 _ _ H); reflexivity.
  - intros w c rest Hl Hw Hc Hi Hcount.
    destruct (should_remove dart_patterns l) eqn:Hrm; [| reflexivity].
    destruct (Hdart eq_refl)
      as [[H1 _] | [_ (w' & rest' & Hl' & Hw')]]; [contradiction |].
    rewrite Hl in Hl'.
    contradiction Hi.
    exact (first_nonspace_unique _ _ _ _ _ _ Hl' Hw Hc Hw' eq_refl).
  - intros w rest Hl Hw Hcount.
    destruct (should_remove dart_patterns l) eqn:Hrm; [| reflexivity].
    destruct (Hdart eq_refl)
      as [[_ (w' & c & rest' & Hl' & Hw' & Hc)] | [H2 _]];
      [| contradiction].
    rewrite Hl in Hl'.
    assert (Hsp : isspace c = false) by (destruct Hc as [-> | ->]; reflexivity).
    pose proof (first_nonspace_unique _ _ _ _ _ _ Hl' Hw eq_refl Hw' Hsp)
      as Hic.
    destruct Hc as [-> | ->]; discriminate Hic.
  - intros Hcount.
    destruct (should_remove swift_patterns l) eqn:Hrm; [| reflexivity].
    contradiction (Hcount (Hswift eq_refl)).
Qed.

Lemma removed_line_has_one_closing_paren_witness :
  should_remove swift_patterns (ln "  print(x)") = true
  /\ count (ln "  print(x)") RPAREN = 1
  /\ forallb isspace (py "  ") = true
  /\ isspace (ord "p") = false
  /\ count (py "  " ++ ord "p" :: ln "rint(f(x));") RPAREN = 2
  /\ should_remove dart_patterns (py "  " ++ ord "p" :: ln "rint(f(x));")
     = false
  /\ count (ln "if (kDebugMode) print(g());") RPAREN = 3
  /\ should_remove dart_patterns (ln "if (kDebugMode) print(g());") = false.
Proof.
  assert (H1 : should_remove swift_patterns (ln "  print(x)") = true)
    by (vm_compute; reflexivity).
  assert (H2 : forallb isspace (py "  ") = true) by (vm_compute; reflexivity).
  assert (H3 : isspace (ord "p") = false) by (vm_compute; reflexivity).
  assert (H4 : count (py "  " ++ ord "p" :: ln "rint(f(x));") RPAREN <> 1)
    by (vm_compute; discriminate).
  assert (H5 : ord "p" <> ord "i") by (vm_compute; discriminate).
  assert (H6 : count (ln "if (kDebugMode) print(g());") RPAREN <> 2)
    by (vm_compute; discriminate).
  split; [exact H1 |]. split.
  { exact (proj1 (proj2 (proj2 (removed_line_has_one_closing_paren
                                  (ln "  print(x)")))) H1). }
  split; [exact H2 |]. split; [exact H3 |].
  split; [vm_compute; reflexivity |]. split.
  { exact (proj1 (proj2 (proj2 (proj2 (proj2
             (removed_line_has_one_closing_paren
                (py "  " ++ ord "p" :: ln "rint(f(x));"))))))
             (py "  ") (ord "p") (ln "rint(f(x));") eq_refl H2 H3 H5 H4). }
  split; [vm_compute; reflexivity |].
  exact (proj1 (proj2 (proj2 (proj2 (proj2 (proj2
           (removed_line_has_one_closing_paren
              (ln "if (kDebugMode) print(g());")))))))
           [] (ln "f (kDebugMode) print(g());") eq_refl eq_refl H6).
Defined.

Lemma at_eol_space (s : str) : at_eol s = true -> forallb isspace s = true.
Proof.
  destruct s as [|x [|y s]]; simpl; [reflexivity | | discriminate].
  intros ->%N.eqb_eq. reflexivity.
Qed.

(** A pattern that ends in [c\s*$] matches only a line in which some [c]
    has nothing but spaces behind it. *)
Lemma matches_here_tail (c : char) :
  forall r0 b s,
    matches_here (r0 ++ [One (Lit c); Star Space; Eol]) b s = true ->
    exists pre post, s = pre ++ c :: post /\ forallb isspace post = true.
Proof.
  induction r0 as [|a r0 IH]; intros b s Hm.
  - simpl in Hm. destruct s as [|x s]; [discriminate|].
    apply andb_true_iff in Hm as [Hx Hm]. apply N.eqb_eq in Hx as ->.
    destruct (star_inv _ _ _ _ Hm) as (pre & rest & b' & -> & Hpre & Hk).
    simpl in Hk. apply andb_true_iff in Hk as [Hk _].
    exists [], (pre ++ rest). split; [reflexivity |].
    change (forallb isspace pre = true) in Hpre.
    rewrite forallb_app, Hpre, (at_eol_space _ Hk). reflexivity.
  - destruct a as [| |k|k|k]; simpl in Hm.
    + apply andb_true_iff in Hm as [_ Hm]. exact (IH _ _ Hm).
    + apply andb_true_iff in Hm as [_ Hm]. exact (IH _ _ Hm).
    + destruct s as [|x s]; [discriminate|].
      apply andb_true_iff in Hm as [_ Hm].
      destruct (IH _ _ Hm) as (pre & post & -> & Hpost).
      exists (x :: pre), post. auto.
    + destruct (star_inv _ _ _ _ Hm) as (pre0 & rest & b' & -> & _ & Hr).
      destruct (IH _ _ Hr) as (pre & post & -> & Hpost).
      exists (pre0 ++ pre), post. rewrite <- app_assoc. auto.
    + destruct s as [|x s]; [discriminate|].
      apply andb_true_iff in Hm as [_ Hm].
      destruct (star_inv _ _ _ _ Hm) as (pre0 & rest & b' & -> & _ & Hr).
      destruct (IH _ _ Hr) as (pre & post & -> & Hpost).
      exists (x :: pre0 ++ pre), post. simpl. rewrite <- app_assoc. auto.
Qed.

Lemma count_nonneg (s : str) (c : char) : 0 <= count s c.
Proof.
  induction s as [|x s IH]; simpl; [lia |].
  destruct (x =? c)%N; lia.
Qed.

(** A line with exactly one [c] is cut at it in one way only. *)
Lemma split_at_only (c : char) (pre pre' post post' : str) :
  pre ++ c :: post = pre' ++ c :: post' ->
  count (pre ++ c :: post) c = 1 ->
  pre = pre' /\ post = post'.
Proof.
  revert pre'. induction pre as [|x pre IH]; intros pre' Heq Hcount.
  - destruct pre' as [|y pre']; simpl in Heq.
    + injection Heq as <-. auto.
    + injection Heq as <- ->. simpl in Hcount.
      rewrite N.eqb_refl, count_app in Hcount. simpl in Hcount.
      rewrite N.eqb_refl in Hcount.
      pose proof (count_nonneg pre' c). pose proof (count_nonneg post' c).
      lia.
  - destruct pre' as [|y pre']; simpl in Heq.
    + injection Heq as -> <-. simpl in Hcount.
      rewrite N.eqb_refl, count_app in Hcount. simpl in Hcount.
      rewrite N.eqb_refl in Hcount.
      pose proof (count_nonneg pre c). pose proof (count_nonneg post c).
      lia.
    + injection Heq as <- Heq. simpl in Hcount.
      assert (Hc : count (pre ++ c :: post) c = 1).
      { pose proof (count_nonneg (pre ++ c :: post) c) as Hge.
        rewrite count_app in Hge, Hcount |- *. simpl in Hge, Hcount |- *.
        rewrite N.eqb_refl in Hge, Hcount |- *.
        pose proof (count_nonneg pre c). pose proof (count_nonneg post c).
        destruct (x =? c)%N; lia. }
      destruct (IH pre' Heq Hc) as [-> ->]. auto.
Qed.

(** Property X9.  A block opener holds exactly one [{], no [}], one [(]
    and one [)], and behind its [{] nothing but spaces.  So a [kDebugMode]
    test with its statement, a comment or the closing brace behind the [{]
    on the same line does not open a block: whatever the line is, when
    something that is not a space follows a [{] in it, the test for the
    opener fails. *)
Theorem opener_has_one_brace (l : line) :
  (re_match kdebug_block_re l = true ->
   count l LBRACE = 1 /\ count l RBRACE = 0
   /\ count l LPAREN = 1 /\ count l RPAREN = 1
   /\ exists pre post,
        l = pre ++ LBRACE :: post
        /\ count pre LBRACE = 0 /\ forallb isspace post = true)
  /\ (forall pre post,
         l = pre ++ LBRACE :: post -> forallb isspace post = false ->
         re_match kdebug_block_re l = false).
Proof.
  assert (Hcount : forall c n,
             c <> LF -> occurrences kdebug_block_re c = Some n ->
             re_match kdebug_block_re l = true -> count l c = n).
  { intros c n Hc Hn Hm.
    exact (re_match_occurrences kdebug_block_re l c n Hc eq_refl Hn Hm). }
  assert (Htail : re_match kdebug_block_re l = true ->
                  exists pre post,
                    l = pre ++ LBRACE :: post
                    /\ forallb isspace post = true).
  { intros Hm.
    apply (matches_here_tail LBRACE (firstn 20 kdebug_block_re) true l).
    exact Hm. }
  split.
  - intros Hm.
    assert (H1 : count l LBRACE = 1)
      by (apply Hcount; [discriminate | reflexivity | exact Hm]).
    repeat (split; [apply Hcount;
                    [discriminate | reflexivity | exact Hm] |]).
    destruct (Htail Hm) as (pre & post & -> & Hpost).
    exists pre, post. repeat split; try assumption.
    rewrite count_app in H1. simpl in H1.
    change (LBRACE =? LBRACE)%N with true in H1.
    pose proof (count_nonneg pre LBRACE).
    pose proof (count_nonneg post LBRACE). lia.
  - intros pre post -> Hpost.
    destruct (re_match kdebug_block_re (pre ++ LBRACE :: post)) eqn:Hm;
      [| reflexivity].
    assert (H1 : count (pre ++ LBRACE :: post) LBRACE = 1)
      by (apply Hcount; [discriminate | reflexivity | reflexivity]).
    destruct (Htail eq_refl) as (pre' & post' & Heq & Hpost').
    destruct (split_at_only LBRACE pre pre' post post' Heq H1) as [_ ->].
    congruence.
Qed.

Lemma opener_has_one_brace_witness :
  re_match kdebug_block_re (ln "  if (kDebugMode) {") = true
  /\ count (ln "  if (kDebugMode) {") LBRACE = 1
  /\ forallb isspace (ln " x = 1;") = false
  /\ re_match kdebug_block_re (py "if (kDebugMode) " ++ LBRACE :: ln " x = 1;")
     = false.
Proof.
  assert (H1 : re_match kdebug_block_re (ln "  if (kDebugMode) {") = true)
    by (vm_compute; reflexivity).
  assert (H2 : forallb isspace (ln " x = 1;") = false)
    by (vm_compute; reflexivity).
  split; [| split; [| split; [exact H2 |]]].
  - exact H1.
  - exact (proj1 (proj1 (opener_has_one_brace (ln "  if (kDebugMode) {")) H1)).
  - exact (proj2 (opener_has_one_brace
                    (py "if (kDebugMode) " ++ LBRACE :: ln " x = 1;"))
             (py "if (kDebugMode) ") (ln " x = 1;") eq_refl H2).
Defined.

(** ** Further properties of the methods *)

Section Accounting.
Context {W E : Type} `{FS : FileSystem W E}.


Lemma errors_app (a b : list (event E)) : errors (a ++ b) = errors a + errors b.
Proof.
  induction a as [|[q|q ls|[]] a IH]; simpl; rewrite ?IH; lia.
Qed.

Lemma removed_total_app (a b : list (event E)) :
  removed_total (a ++ b) = removed_total a + removed_total b.
Proof.
  induction a as [|[q|q ls|[]] a IH]; simpl; rewrite ?IH; lia.
Qed.

Lemma has_removed_app (a b : list (event E)) :
  has_removed (a ++ b) = has_removed a || has_removed b.
Proof.
  induction a as [|[q|q ls|[]] a IH]; simpl; rewrite ?IH; reflexivity.
Qed.

(** What one per-file operation does to the counters and prints. *)
Lemma cleaned_accounting (scan : list line -> list line)
      (processed : DebugLogCleaner -> DebugLogCleaner)
      (p : Path) (s s' : state W E) (n : Z) :
  (forall ls, (length (scan ls) <= length ls)%nat) ->
  (forall c, total_lines_removed (processed c) = total_lines_removed c) ->
  (forall c, dart_files_processed (processed c)
             + swift_files_processed (processed c)
             = dart_files_processed c + swift_files_processed c + 1) ->
  cleaned scan processed p s n s' ->
  exists evs,
    trace s' = trace s ++ evs
    /\ 0 <= n
    /\ removed_total evs = n
    /\ has_removed evs = (0 <? n)
    /\ total_lines_removed (self s') = total_lines_removed (self s) + n
    /\ dart_files_processed (self s') + swift_files_processed (self s')
       + errors evs
       = dart_files_processed (self s) + swift_files_processed (self s) + 1.
Proof.
  intros Hlen Htot Hcount
         [e Hr | lines Hr Hn | lines w' Hr Hn Hw | lines e w' Hr Hn Hw];
    simpl; eexists; (split; [reflexivity|]); simpl.
  - repeat split; lia.
  - pose proof (Hlen lines). unfold len in *.
    rewrite Htot, Hcount.
    replace (Z.of_nat (length lines) - Z.of_nat (length (scan lines)))
      with 0 by lia.
    repeat split; lia.
  - rewrite Htot, Hcount. simpl.
    destruct (Z.ltb_spec 0 (len lines - len (scan lines))); [|lia].
    repeat split; lia.
  - repeat split; lia.
Qed.

(** The same over one loop of [run]. *)
Lemma sweep_accounting (scan : list line -> list line)
      (processed : DebugLogCleaner -> DebugLogCleaner) :
  (forall ls, (length (scan ls) <= length ls)%nat) ->
  (forall c, total_lines_removed (processed c) = total_lines_removed c) ->
  (forall c, dart_files_processed (processed c)
             + swift_files_processed (processed c)
             = dart_files_processed c + swift_files_processed c + 1) ->
  forall files (s : state W E),
  exists s' evs,
    sweep (clean_with scan processed) files s = (Return tt, s')
    /\ trace s' = trace s ++ evs
    /\ 0 <= removed_total evs
    /\ has_removed evs = (0 <? removed_total evs)
    /\ total_lines_removed (self s')
       = total_lines_removed (self s) + removed_total evs
    /\ dart_files_processed (self s') + swift_files_processed (self s')
       + errors evs
       = dart_files_processed (self s) + swift_files_processed (self s)
         + len files.
Proof.
  intros Hlen Htot Hcount. induction files as [|p files IH]; intros s.
  - exists s, []. rewrite app_nil_r. unfold len. simpl.
    repeat split; lia.
  - rewrite sweep_cons.
    destruct (clean_with_cleaned scan processed p s) as (n & s1 & -> & Hc).
    destruct (cleaned_accounting _ _ _ _ _ _ Hlen Htot Hcount Hc)
      as (ev1 & Ht1 & Hn1 & Hr1 & Hh1 & Htot1 & Hcnt1).
    destruct (IH s1) as (s' & evs & -> & Ht & Hn & Hh & Htot' & Hcnt).
    exists s', (ev1 ++ evs). split; [reflexivity|].
    rewrite Ht, Ht1, <- app_assoc, removed_total_app, has_removed_app,
      errors_app, Hh1, Hh, Hr1.
    unfold len in *. simpl length. rewrite Nat2Z.inj_succ.
    repeat split; lia.
Qed.

Lemma summary_quiet (c : DebugLogCleaner) :
  errors (map (@Print E) (summary c)) = 0
  /\ removed_total (map (@Print E) (summary c)) = 0
  /\ has_removed (map (@Print E) (summary c)) = false.
Proof.
  unfold summary. destruct (0 <? total_lines_removed c); simpl; auto.
Qed.

(** The same over [run], however it ends. *)
Lemma run_accounting (s : state W E) :
  exists r s' evs dart_files swift_files w1,
    run s = (r, s')
    /\ searched s r dart_files swift_files w1
    /\ trace s' = trace s ++ evs ++ map Print (closing r (self s'))
    /\ 0 <= removed_total evs
    /\ has_removed evs = (0 <? removed_total evs)
    /\ total_lines_removed (self s')
       = total_lines_removed (self s) + removed_total evs
    /\ dart_files_processed (self s') + swift_files_processed (self s')
       + errors evs
       = dart_files_processed (self s) + swift_files_processed (self s)
         + len dart_files + len swift_files
    /\ project_root (self s') = project_root (self s).
Proof.
  rewrite run_unfold, clean_dart_file_shape, clean_swift_file_shape.
  destruct (found (world s) (project_root (self s)) "*.dart")
    as [e | dart_files] eqn:Hd.
  { exists (Raise e), (emit (heading (self s)) s),
           (map Print (heading (self s))), [], [], (world s).
    split; [reflexivity |]. split; [constructor; exact Hd |].
    unfold len. simpl. rewrite ?app_nil_r. repeat split; lia. }
  destruct (sweep_accounting clean_dart_lines incr_dart_files_processed
              clean_dart_lines_length (fun c => eq_refl))
    with (files := dart_files) (s := emit (heading (self s)) s)
    as (s1 & ev1 & Hs1 & Ht1 & Hn1 & Hh1 & Htot1 & Hcnt1).
  { intros c. simpl. lia. }
  destruct (sweep_visits clean_dart_lines incr_dart_files_processed
              incr_dart_root dart_files (emit (heading (self s)) s))
    as (s1' & ev1' & Hs1' & _ & _ & _ & Hroot1).
  rewrite Hs1 in Hs1'. injection Hs1' as <-.
  simpl in Ht1, Htot1, Hcnt1, Hroot1. rewrite Hs1, Hroot1.
  destruct (found (world s1) (project_root (self s)) "*.swift")
    as [e | swift_files] eqn:Hsw.
  { exists (Raise e), (emit interlude s1),
           (map Print (heading (self s)) ++ ev1 ++ map Print interlude),
           dart_files, [], (world s1).
    split; [reflexivity |].
    split; [exact (SwiftSearchRaised s e dart_files (world s1) Hd Hsw) |].
    rewrite !removed_total_app, !has_removed_app, !errors_app. simpl.
    rewrite Hh1, Ht1, <- !app_assoc, ?app_nil_r, ?orb_false_r.
    unfold len in *. simpl. repeat split; lia || assumption. }
  destruct (sweep_accounting clean_swift_lines incr_swift_files_processed
              clean_swift_lines_length (fun c => eq_refl))
    with (files := swift_files) (s := emit interlude s1)
    as (s2 & ev2 & Hs2 & Ht2 & Hn2 & Hh2 & Htot2 & Hcnt2).
  { intros c. simpl. lia. }
  destruct (sweep_visits clean_swift_lines incr_swift_files_processed
              incr_swift_root swift_files (emit interlude s1))
    as (s2' & ev2' & Hs2' & _ & _ & _ & Hroot2).
  rewrite Hs2 in Hs2'. injection Hs2' as <-.
  simpl in Ht2, Htot2, Hcnt2, Hroot2. rewrite Hs2.
  exists (Return tt), (emit (summary (self s2)) s2),
         (map Print (heading (self s)) ++ ev1 ++ map Print interlude ++ ev2),
         dart_files, swift_files, (world s1).
  split; [reflexivity |].
  split; [exact (BothSearched s dart_files swift_files (world s1) Hd Hsw) |].
  rewrite !removed_total_app, !has_removed_app, !errors_app. simpl.
  rewrite Hh1, Hh2.
  repeat split; try lia.
  - rewrite Ht2, Ht1, <- !app_assoc. reflexivity.
  - congruence.
Qed.

End Accounting.



Lemma incr_dart_counts (c : DebugLogCleaner) :
  dart_files_processed (incr_dart_files_processed c)
  + swift_files_processed (incr_dart_files_processed c)
  = dart_files_processed c + swift_files_processed c + 1.
Proof. simpl. lia. Qed.

Lemma incr_swift_counts (c : DebugLogCleaner) :
  dart_files_processed (incr_swift_files_processed c)
  + swift_files_processed (incr_swift_files_processed c)
  = dart_files_processed c + swift_files_processed c + 1.
Proof. simpl. lia. Qed.

(** Property X11.  What a per-file operation returns is never negative and
    is exactly what it adds to [total_lines_removed]; it prints a
    [Removed] line, with that count, exactly when it returns a positive
    number; and it leaves the scan root and the other language's count of
    processed files as they were. *)
Theorem returned_count_is_added_to_total {W E} `{FS : FileSystem W E}
        (s : state W E) (p : Path) :
  (exists n s' evs,
      clean_dart_file p s = (Return n, s')
      /\ trace s' = trace s ++ evs
      /\ 0 <= n
      /\ total_lines_removed (self s') = total_lines_removed (self s) + n
      /\ removed_total evs = n
      /\ has_removed evs = (0 <? n)
      /\ project_root (self s') = project_root (self s)
      /\ swift_files_processed (self s') = swift_files_processed (self s))
  /\ (exists n s' evs,
         clean_swift_file p s = (Return n, s')
         /\ trace s' = trace s ++ evs
         /\ 0 <= n
         /\ total_lines_removed (self s') = total_lines_removed (self s) + n
         /\ removed_total evs = n
         /\ has_removed evs = (0 <? n)
         /\ project_root (self s') = project_root (self s)
         /\ dart_files_processed (self s') = dart_files_processed (self s)).
Proof.
  rewrite clean_dart_file_shape, clean_swift_file_shape. split.
  - destruct (clean_with_cleaned clean_dart_lines incr_dart_files_processed
                p s) as (n & s' & Heq & Hc).
    destruct (cleaned_accounting clean_dart_lines incr_dart_files_processed
                p s s' n clean_dart_lines_length
                (fun c => eq_refl) incr_dart_counts Hc)
      as (evs & Ht & Hn & Hr & Hh & Htot & _).
    exists n, s', evs. repeat split; try assumption.
    + exact (cleaned_root _ _ _ _ _ _ incr_dart_root Hc).
    + destruct Hc; reflexivity.
  - destruct (clean_with_cleaned clean_swift_lines incr_swift_files_processed
                p s) as (n & s' & Heq & Hc).
    destruct (cleaned_accounting clean_swift_lines
                incr_swift_files_processed p s s' n clean_swift_lines_length
                (fun c => eq_refl) incr_swift_counts Hc)
      as (evs & Ht & Hn & Hr & Hh & Htot & _).
    exists n, s', evs. repeat split; try assumption.
    + exact (cleaned_root _ _ _ _ _ _ incr_swift_root Hc).
    + destruct Hc; reflexivity.
Qed.

(** Property X12.  However [run] ends, every file it found has been
    either counted as processed or reported by an error line, never both:
    what the two counts of processed files gained, plus the number of
    error lines printed, is the number of Dart files found plus the number
    of Swift files found.  And what [total_lines_removed] gained is the
    sum of the counts in the [Removed] lines printed. *)
Theorem run_accounts_for_every_file {W E} `{FS : FileSystem W E}
        (s : state W E) :
  exists r s' evs dart_files swift_files w1,
    run s = (r, s')
    /\ searched s r dart_files swift_files w1
    /\ trace s' = trace s ++ evs
    /\ dart_files_processed (self s') + swift_files_processed (self s')
       + errors evs
       = dart_files_processed (self s) + swift_files_processed (self s)
         + len dart_files + len swift_files
    /\ total_lines_removed (self s')
       = total_lines_removed (self s) + removed_total evs.
Proof.
  destruct (run_accounting s)
    as (r & s' & evs & dart_files & swift_files & w1
        & Hrun & Hsearch & Ht & Hn & Hh & Htot & Hcnt & Hroot).
  assert (Hq : errors (map (@Print E) (closing r (self s'))) = 0
               /\ removed_total (map (@Print E) (closing r (self s'))) = 0).
  { destruct r as [[] | e]; simpl; [| auto].
    destruct (summary_quiet (E := E) (self s')) as (He & Hr & _). auto. }
  destruct Hq as [He Hr].
  exists r, s', (evs ++ map Print (closing r (self s'))),
         dart_files, swift_files, w1.
  rewrite errors_app, removed_total_app, He, Hr, !Z.add_0_r.
  auto 7.
Qed.


(** Property X14.  A per-file operation opens no file but its own.  When
    it opens it for writing, the lines it hands over are the scan of the
    lines it read: a subsequence of them, and fewer.  When it does not, it
    leaves the file system as it was. *)
Theorem written_lines_are_scan_of_file {W E} `{FS : FileSystem W E}
        (s : state W E) (p : Path) :
  (exists evs,
      trace (snd (clean_dart_file p s)) = trace s ++ evs
      /\ reads evs = [p]
      /\ ((written evs = []
           /\ world (snd (clean_dart_file p s)) = world s)
          \/ exists lines,
               fs_readlines (world s) p = inr lines
               /\ written evs = [(p, clean_dart_lines lines)]
               /\ sublist (clean_dart_lines lines) lines
               /\ (length (clean_dart_lines lines) < length lines)%nat))
  /\ (exists evs,
         trace (snd (clean_swift_file p s)) = trace s ++ evs
         /\ reads evs = [p]
         /\ ((written evs = []
              /\ world (snd (clean_swift_file p s)) = world s)
             \/ exists lines,
                  fs_readlines (world s) p = inr lines
                  /\ written evs = [(p, clean_swift_lines lines)]
                  /\ sublist (clean_swift_lines lines) lines
                  /\ (length (clean_swift_lines lines) < length lines)%nat)).
Proof.
  rewrite clean_dart_file_shape, clean_swift_file_shape. split.
  - destruct (clean_with_cleaned clean_dart_lines incr_dart_files_processed
                p s) as (n & s' & -> & Hc).
    destruct Hc as [e Hr | lines Hr Hn | lines w' Hr Hn Hw
                   | lines e w' Hr Hn Hw];
      simpl; eexists; (split; [reflexivity|]); simpl;
      (split; [reflexivity|]); auto;
      right; exists lines;
      (split; [exact Hr | split; [reflexivity
        | split; [apply clean_dart_lines_sublist | unfold len in Hn; lia]]]).
  - destruct (clean_with_cleaned clean_swift_lines incr_swift_files_processed
                p s) as (n & s' & -> & Hc).
    destruct Hc as [e Hr | lines Hr Hn | lines w' Hr Hn Hw
                   | lines e w' Hr Hn Hw];
      simpl; eexists; (split; [reflexivity|]); simpl;
      (split; [reflexivity|]); auto;
      right; exists lines;
      (split; [exact Hr | split; [reflexivity
        | split; [apply clean_swift_lines_sublist | unfold len in Hn; lia]]]).
Qed.
